(** * NSE order block scanner: the analysis core of [orderblock_sccaner.py]

    A shallow embedding of the three analysis functions of the scanner,
    [fetch_stock_data] (its resampling step), [detect_bullish_order_block]
    and [check_zone_interaction], and the properties stated about them.

    Numbers.  The data frame columns are float64.  A finite float is
    modelled by the rational it denotes (rounding is not modelled); the
    three special values a float64 column can hold here, the NaN that
    [shift] and an empty [max] introduce and the infinities that a
    division by zero produces, are kept as separate constructors so that
    the model follows pandas on them instead of Rocq's [x / 0 = 0]. *)

From Stdlib Require Import String Ascii QArith Qminmax Qabs ZArith Lia Lqa Bool Arith List Sorted Permutation.
Import ListNotations.

(* ------------------------------------------------------------------ *)
(** ** Column values *)

Module Num.

(** A float64 cell: a finite value or one of the IEEE specials. *)
Inductive fp : Type :=
| Fin (q : Q)
| PInf
| NInf
| NaN.

(** [x < y] on finite values, as a boolean. *)
Definition Qlt_bool (x y : Q) : bool := negb (Qle_bool y x).

(** [x - q] for a cell [x] and a finite [q]. *)
Definition fsub (x : fp) (q : Q) : fp :=
  match x with
  | Fin a => Fin (a - q)
  | PInf => PInf
  | NInf => NInf
  | NaN => NaN
  end.

(** [x / q] for a cell [x] and a finite [q]; a zero divisor gives a
    signed infinity, or NaN for 0/0, and never raises. *)
Definition fdiv (x : fp) (q : Q) : fp :=
  match x with
  | Fin a =>
      if Qeq_bool q 0 then
        (if Qlt_bool 0 a then PInf else if Qlt_bool a 0 then NInf else NaN)
      else Fin (a / q)
  | PInf => if Qlt_bool q 0 then NInf else PInf
  | NInf => if Qlt_bool q 0 then PInf else NInf
  | NaN => NaN
  end.

(** [x >= q]; every comparison with NaN is false. *)
Definition fge (x : fp) (q : Q) : bool :=
  match x with
  | Fin a => Qle_bool q a
  | PInf => true
  | NInf => false
  | NaN => false
  end.

(** [Series.max()]: NaN on an empty series. *)
Definition series_max (l : list Q) : fp :=
  match l with
  | [] => NaN
  | x :: rest => Fin (fold_left Qmax rest x)
  end.

End Num.
Import Num.

(* ------------------------------------------------------------------ *)
(** ** Results of code that can raise *)

(** The only exception the analysis code could raise is the IndexError of
    a positional access outside the frame. *)
Inductive result (A : Type) : Type :=
| Ret (a : A)
| IndexError.
Arguments Ret {A} a.
Arguments IndexError {A}.

Definition bind {A B : Type} (m : result A) (k : A -> result B) : result B :=
  match m with
  | Ret a => k a
  | IndexError => IndexError
  end.

Notation "x <- m ;; k" := (bind m (fun x => k))
  (at level 61, m at next level, right associativity).

(** [for i in idx: s = body(s, i)], stopping at the first exception. *)
Fixpoint for_each {S : Type} (body : S -> nat -> result S)
         (idx : list nat) (s : S) : result S :=
  match idx with
  | [] => Ret s
  | i :: rest => s' <- body s i ;; for_each body rest s'
  end.

(** [range(n)] for an [n] that is a difference of lengths: [len - 3] is
    taken in the integers and a negative bound gives the empty range, which
    is what the truncated subtraction of [nat] gives too. *)
Definition range (n : nat) : list nat := seq 0 n.

(* ------------------------------------------------------------------ *)
(** ** Frames *)

(** One row of the OHLCV frame; [timestamp] is the row's index label, in
    seconds. *)
Record Bar : Type := mkBar {
  timestamp : Z;
  Open : Q;
  High : Q;
  Low : Q;
  Close : Q;
  Volume : Q
}.

Definition DataFrame : Type := list Bar.

(** [df.iloc[i]] for [i >= 0]. *)
Definition iloc {A : Type} (df : list A) (i : nat) : result A :=
  match nth_error df i with
  | Some r => Ret r
  | None => IndexError
  end.

(** [df.iloc[start:stop]] for [0 <= start <= stop]: a slice is clipped at
    the end of the frame and never raises. *)
Definition iloc_slice {A : Type} (df : list A) (start stop : nat) : list A :=
  firstn (stop - start) (skipn start df).

(** [df.tail(n)]: the last [n] rows, the empty frame for [n = 0], and all
    rows but the first [|n|] for a negative [n]. *)
Definition tail {A : Type} (n : Z) (df : list A) : list A :=
  if (n =? 0)%Z then []
  else if (0 <? n)%Z then skipn (length df - Z.to_nat n) df
  else skipn (Z.to_nat (- n)) df.

(** [order_blocks[-1]] when the list is not empty. *)
Fixpoint last_item {A : Type} (l : list A) : option A :=
  match l with
  | [] => None
  | x :: rest =>
      match rest with
      | [] => Some x
      | _ :: _ => last_item rest
      end
  end.

(* ------------------------------------------------------------------ *)
(** ** Resampling: the aggregation step of [fetch_stock_data] *)

Module Aggregator.

(** Seconds in a day; ['4H'] is [4 * 3600]. *)
Definition DAY : Z := 86400.
Definition FOUR_HOURS : Z := 14400.

(** The default origin of [resample], ['start_day']: midnight of the day
    of the first timestamp. *)
Definition start_day (t : Z) : Z := (DAY * (t / DAY))%Z.

Definition first_timestamp (t0 : Z) (rest : list Z) : Z := fold_left Z.min rest t0.
Definition last_timestamp (t0 : Z) (rest : list Z) : Z := fold_left Z.max rest t0.

(** Time covered by a series: latest minus earliest timestamp. *)
Definition span (df : DataFrame) : Z :=
  match map timestamp df with
  | [] => 0%Z
  | t0 :: rest => (last_timestamp t0 rest - first_timestamp t0 rest)%Z
  end.

(** [first, first + 1, ..., last] *)
Definition bins (first last : Z) : list Z :=
  map (fun i => (first + Z.of_nat i)%Z) (seq 0 (Z.to_nat (last - first + 1))).

Section Resample.

(** Bucket width in seconds. *)
Variable bucket : Z.

(** Number of the bucket, counted from [origin], that holds time [t]. *)
Definition bin_of (origin t : Z) : Z := ((t - origin) / bucket)%Z.

(** [.agg({'Open': 'first', 'High': 'max', 'Low': 'min', 'Close': 'last',
    'Volume': 'sum'})] on the rows of one bucket.  On a bucket without
    rows first, max, min and last are NaN: the row is the one [dropna]
    removes, written [None].  The rows of a bucket are taken in the order
    of the series, which is ascending in time. *)
Definition agg (label : Z) (rows : list Bar) : option Bar :=
  match rows with
  | [] => None
  | b :: rest =>
      Some (mkBar label
                  (Open b)
                  (fold_left Qmax (map High rest) (High b))
                  (fold_left Qmin (map Low rest) (Low b))
                  (Close (last rest b))
                  (fold_left Qplus (map Volume rest) (Volume b)))
  end.

(** [df.resample(bucket).agg(...)]: one row for every bucket from the one
    of the earliest timestamp to the one of the latest. *)
Definition resample_agg (df : DataFrame) : list (option Bar) :=
  match map timestamp df with
  | [] => []
  | t0 :: rest =>
      let origin := start_day (first_timestamp t0 rest) in
      map (fun k =>
             agg (origin + bucket * k)%Z
                 (filter (fun b => (bin_of origin (timestamp b) =? k)%Z) df))
          (bins (bin_of origin (first_timestamp t0 rest))
                (bin_of origin (last_timestamp t0 rest)))
  end.

(** [.dropna()] *)
Definition dropna (rows : list (option Bar)) : DataFrame :=
  flat_map (fun r => match r with Some b => [b] | None => [] end) rows.

Definition aggregate (df : DataFrame) : DataFrame := dropna (resample_agg df).

End Resample.

(** [fetch_stock_data] after the download: [history] is what
    [ticker.history(period="60d", interval="1h")] returned. *)
Definition fetch_stock_data (history : DataFrame) : option DataFrame :=
  match history with
  | [] => None
  | _ :: _ => Some (aggregate FOUR_HOURS history)
  end.

End Aggregator.

(* ------------------------------------------------------------------ *)
(** ** Detection: [detect_bullish_order_block] *)

(** The dictionary appended to [order_blocks]. *)
Record OrderBlock : Type := mkOrderBlock {
  zone_high : Q;
  zone_low : Q;
  ob_timestamp : Z;
  strength : fp
}.

(** A row of [recent_df]: the bar and the four columns added to it. *)
Record Row : Type := mkRow {
  bar : Bar;
  is_bearish : bool;
  is_bullish : bool;
  next_high : fp;
  move_percent : fp
}.

(** The row of bar [b] when [nxt] is the bar below it, if there is one:
    [shift(-1)] leaves NaN in the last row. *)
Definition row_of (b : Bar) (nxt : option Bar) : Row :=
  let nh := match nxt with Some n => Fin (High n) | None => NaN end in
  mkRow b
        (Qlt_bool (Close b) (Open b))
        (Qlt_bool (Open b) (Close b))
        nh
        (fdiv (fsub nh (Low b)) (Low b)).

(** The four column assignments on [recent_df]. *)
Fixpoint with_columns (w : list Bar) : list Row :=
  match w with
  | [] => []
  | b :: rest => row_of b (hd_error rest) :: with_columns rest
  end.

Section Detector.

(** The module globals. *)
Variable MIN_BULLISH_MOVE : Q.
Variable LOOKBACK_CANDLES : Z.

(** [df.tail(LOOKBACK_CANDLES)]: the analysis window. *)
Definition window (df : DataFrame) : list Bar := tail LOOKBACK_CANDLES df.

Definition recent (df : DataFrame) : list Row := with_columns (window df).

(** The indices the loop visits. *)
Definition candidate_indices (recent_df : list Row) : list nat :=
  range (length recent_df - 3).

(** The body of the [for] loop, on the list built so far. *)
Definition scan_step (recent_df : list Row) (order_blocks : list OrderBlock)
           (i : nat) : result (list OrderBlock) :=
  current <- iloc recent_df i ;;
  next_candle <- iloc recent_df (i + 1) ;;
  if is_bearish current && is_bullish next_candle
     && fge (move_percent current) MIN_BULLISH_MOVE
  then
    let subsequent_high :=
      series_max (map (fun r => High (bar r))
                      (iloc_slice recent_df (i + 1) (i + 4))) in
    if fge (fdiv (fsub subsequent_high (Low (bar current))) (Low (bar current)))
           MIN_BULLISH_MOVE
    then
      index_i <- iloc (map (fun r => timestamp (bar r)) recent_df) i ;;
      Ret (order_blocks ++ [mkOrderBlock (High (bar current))
                                         (Low (bar current))
                                         index_i
                                         (move_percent current)])
    else Ret order_blocks
  else Ret order_blocks.

Definition detect_bullish_order_block (df : option DataFrame)
  : result (option OrderBlock) :=
  match df with
  | None => Ret None
  | Some df =>
      if (length df <? 5)%nat then Ret None
      else
        let recent_df := recent df in
        order_blocks <-
          for_each (scan_step recent_df) (candidate_indices recent_df) [] ;;
        Ret (last_item order_blocks)
  end.

(** The same scan as a single forward pass that keeps one tracked block
    and overwrites it on each confirmation. *)
Definition track_step (recent_df : list Row) (tracked : option OrderBlock)
           (i : nat) : result (option OrderBlock) :=
  current <- iloc recent_df i ;;
  next_candle <- iloc recent_df (i + 1) ;;
  if is_bearish current && is_bullish next_candle
     && fge (move_percent current) MIN_BULLISH_MOVE
  then
    let subsequent_high :=
      series_max (map (fun r => High (bar r))
                      (iloc_slice recent_df (i + 1) (i + 4))) in
    if fge (fdiv (fsub subsequent_high (Low (bar current))) (Low (bar current)))
           MIN_BULLISH_MOVE
    then
      index_i <- iloc (map (fun r => timestamp (bar r)) recent_df) i ;;
      Ret (Some (mkOrderBlock (High (bar current))
                              (Low (bar current))
                              index_i
                              (move_percent current)))
    else Ret tracked
  else Ret tracked.

Definition detect_overwrite_on_confirm (df : option DataFrame)
  : result (option OrderBlock) :=
  match df with
  | None => Ret None
  | Some df =>
      if (length df <? 5)%nat then Ret None
      else
        let recent_df := recent df in
        for_each (track_step recent_df) (candidate_indices recent_df) None
  end.

(** Bar [i] of window [w] passes both confirmation stages: the block it
    gives, read off the bars of the window. *)
Definition confirmed_block (w : list Bar) (i : nat) : option OrderBlock :=
  match nth_error w i, nth_error w (S i) with
  | Some current, Some next =>
      let move := fdiv (fsub (Fin (High next)) (Low current)) (Low current) in
      let subsequent_high :=
        series_max (map High (iloc_slice w (i + 1) (i + 4))) in
      if Qlt_bool (Close current) (Open current)
         && Qlt_bool (Open next) (Close next)
         && fge move MIN_BULLISH_MOVE
         && fge (fdiv (fsub subsequent_high (Low current)) (Low current))
                MIN_BULLISH_MOVE
      then Some (mkOrderBlock (High current) (Low current)
                              (timestamp current) move)
      else None
  | _, _ => None
  end.

(** The blocks confirmed at the indices [idx], in scan order. *)
Definition confirmed_blocks (w : list Bar) (idx : list nat) : list OrderBlock :=
  flat_map (fun i => match confirmed_block w i with
                     | Some ob => [ob]
                     | None => []
                     end) idx.

End Detector.

(** The values the module ships with. *)
Definition MIN_BULLISH_MOVE : Q := 2 # 100.
Definition LOOKBACK_CANDLES : Z := 50.
Definition ZONE_TOUCH_TOLERANCE : Q := 1 # 1000.

(* ------------------------------------------------------------------ *)
(** ** Zone interaction: [check_zone_interaction] *)

Section ZoneInteraction.

(** The module global [ZONE_TOUCH_TOLERANCE]. *)
Variable TOLERANCE : Q.

Definition check_zone_interaction
           (current_price current_low current_high zone_high zone_low : Q)
  : string :=
  let tolerance := (zone_high * TOLERANCE)%Q in
  if Qle_bool zone_low current_price && Qle_bool current_price zone_high
  then "Inside Zone"%string
  else if (Qle_bool (current_low - tolerance) zone_high
           && Qle_bool zone_high (current_high + tolerance))
          || (Qle_bool (current_low - tolerance) zone_low
              && Qle_bool zone_low (current_high + tolerance))
  then "Touching Zone"%string
  else if Qlt_bool zone_high current_low
  then "Above Zone"%string
  else "Below Zone"%string.

End ZoneInteraction.

(** The four statuses of the interaction classifier and the strings the
    code returns for them. *)
Inductive InteractionStatus : Type :=
| InsideZone | TouchingZone | AboveZone | BelowZone.

Definition status_label (s : InteractionStatus) : string :=
  match s with
  | InsideZone => "Inside Zone"
  | TouchingZone => "Touching Zone"
  | AboveZone => "Above Zone"
  | BelowZone => "Below Zone"
  end.

(** The status the code's rules select, as a value of the enumeration. *)
Definition classify_interaction
           (price low high zone_high zone_low tolerance : Q)
  : InteractionStatus :=
  let eps := (zone_high * tolerance)%Q in
  if Qle_bool zone_low price && Qle_bool price zone_high then InsideZone
  else if (Qle_bool (low - eps) zone_high && Qle_bool zone_high (high + eps))
          || (Qle_bool (low - eps) zone_low && Qle_bool zone_low (high + eps))
  then TouchingZone
  else if Qlt_bool zone_high low then AboveZone
  else BelowZone.

(* ------------------------------------------------------------------ *)
(** ** The two scans side by side *)

(** The forward pass is in step with the collecting loop: both raised, or
    the tracked block is the last item of the list collected so far. *)
Definition tracks (scan : result (list OrderBlock))
           (pass : result (option OrderBlock)) : Prop :=
  match scan, pass with
  | Ret order_blocks, Ret tracked => last_item order_blocks = tracked
  | IndexError, IndexError => True
  | _, _ => False
  end.

(* ------------------------------------------------------------------ *)
(** ** Sample series *)

Module Samples.

(** The four bars of the worked scenario, four hours apart; the fields the
    scenario leaves open are filled in. *)
Definition bar_t0 : Bar := mkBar 0 100 102 98 97 1000.
Definition bar_t1 : Bar := mkBar 14400 97 110 96 108 1000.
Definition bar_t2 : Bar := mkBar 28800 108 111 107 109 1000.
Definition bar_t3 : Bar := mkBar 43200 109 109 105 106 1000.

Definition scenario_window : DataFrame := [bar_t0; bar_t1; bar_t2; bar_t3].

(** The same four bars after one earlier bar. *)
Definition bar_before : Bar := mkBar (-14400) 101 103 99 100 1000.
Definition five_bar_series : DataFrame := bar_before :: scenario_window.

(** The block of the scenario. *)
Definition scenario_block : OrderBlock :=
  mkOrderBlock 102 98 0 (Fin ((110 - 98) / 98)).

(** Six bars with two bearish-then-bullish patterns, at rows 0 and 2. *)
Definition bar_c : Bar := mkBar 28800 108 109 105 106 1000.
Definition bar_d : Bar := mkBar 43200 106 120 104 118 1000.
Definition bar_e : Bar := mkBar 57600 118 121 117 119 1000.
Definition bar_f : Bar := mkBar 72000 119 122 118 120 1000.
Definition two_block_series : DataFrame :=
  [bar_t0; bar_t1; bar_c; bar_d; bar_e; bar_f].

Definition second_block : OrderBlock :=
  mkOrderBlock 109 105 28800 (Fin ((120 - 105) / 105)).

(** Three hourly bars of one morning: 09:15, 10:15 and 11:15. *)
Definition hourly_morning : DataFrame :=
  [mkBar 33300 100 101 99 100 10;
   mkBar 36900 100 103 100 102 20;
   mkBar 40500 102 104 98 99 30].

End Samples.

(* ------------------------------------------------------------------ *)
(** ** Notions used to state properties of the resampling *)

(** The bar invariant: open and close lie between low and high. *)
Definition well_formed (b : Bar) : Prop :=
  (Low b <= Open b <= High b)%Q /\ (Low b <= Close b <= High b)%Q.

(** Sum of the Volume column. *)
Definition total_volume (df : DataFrame) : Q :=
  fold_right Qplus 0%Q (map Volume df).

(** A series that is already resampled to [bucket]: strictly ascending
    labels, each a whole number of buckets after midnight of the first
    label's day. *)
Definition bucketed (bucket : Z) (df : DataFrame) : Prop :=
  StronglySorted Z.lt (map timestamp df)
  /\ match map timestamp df with
     | [] => True
     | t0 :: _ =>
         Forall (fun t => ((t - Aggregator.start_day t0) mod bucket = 0)%Z)
                (map timestamp df)
     end.

(* ------------------------------------------------------------------ *)
(** ** Strings: the [str] methods the application calls

    A string is a sequence of code points below 256. *)

Module Str.

(** [c.isspace()] *)
Definition is_space (c : ascii) : bool :=
  let n := nat_of_ascii c in
  ((9 <=? n) && (n <=? 13) || (28 <=? n) && (n <=? 32)
   || (n =? 133) || (n =? 160))%nat.

(** [s.lstrip()] *)
Fixpoint lstrip (s : string) : string :=
  match s with
  | EmptyString => EmptyString
  | String c rest => if is_space c then lstrip rest else s
  end.

(** [s.rstrip()] *)
Fixpoint rstrip (s : string) : string :=
  match s with
  | EmptyString => EmptyString
  | String c rest =>
      match rstrip rest with
      | EmptyString => if is_space c then EmptyString else String c EmptyString
      | String d r => String c (String d r)
      end
  end.

(** [s.strip()] *)
Definition strip (s : string) : string := rstrip (lstrip s).

(** [s.split(sep)] for a one-character separator: the empty string gives
    one empty field, and adjacent separators give empty fields. *)
Fixpoint split (sep : ascii) (s : string) : list string :=
  match s with
  | EmptyString => [EmptyString]
  | String c rest =>
      if Ascii.eqb c sep then EmptyString :: split sep rest
      else match split sep rest with
           | [] => [String c EmptyString]
           | field :: fields => String c field :: fields
           end
  end.

(** [s.replace(old, new)] for a non-empty [old]: occurrences are replaced
    from the left and do not overlap.  [skip] counts the characters of an
    occurrence still to be dropped. *)
Fixpoint replace_from (old new : string) (skip : nat) (s : string) : string :=
  match s with
  | EmptyString => EmptyString
  | String c rest =>
      match skip with
      | S k => replace_from old new k rest
      | O =>
          if prefix old s
          then (new ++ replace_from old new (String.length old - 1) rest)%string
          else String c (replace_from old new 0 rest)
      end
  end.

Definition replace (old new s : string) : string := replace_from old new 0 s.

Definition newline : ascii := ascii_of_nat 10.

(** [t] has no occurrence of [old]. *)
Definition free_of (old t : string) : Prop :=
  forall pre post, t <> (pre ++ old ++ post)%string.

End Str.

(* ------------------------------------------------------------------ *)
(** ** The application: stock list, scan, table and metric boxes *)

Definition SAMPLE_STOCKS : list string :=
  ["TCS.NS"; "INFY.NS"; "RELIANCE.NS"; "HDFCBANK.NS"; "ICICIBANK.NS";
   "WIPRO.NS"; "SBIN.NS"; "BHARTIARTL.NS"; "ITC.NS"; "HINDUNILVR.NS";
   "LT.NS"; "AXISBANK.NS"; "KOTAKBANK.NS"; "MARUTI.NS"; "TITAN.NS";
   "ASIANPAINT.NS"; "BAJFINANCE.NS"; "ULTRACEMCO.NS"; "NESTLEIND.NS";
   "HCLTECH.NS"]%string.

(** [update_stock_list]: the new [self.stock_list], from the state of the
    check box and the content of the text field. *)
Definition update_stock_list (use_custom : bool) (custom_text : string)
  : list string :=
  if use_custom then
    let custom_stocks := Str.split Str.newline (Str.strip custom_text) in
    map (fun s => (Str.strip s ++ ".NS")%string)
        (filter (fun s => negb (Str.strip s =? "")%string) custom_stocks)
  else SAMPLE_STOCKS.

(** One dictionary of [scan_results]. *)
Record ScanResult : Type := mkScanResult {
  Symbol : string;
  Price : Q;
  Zone_Low : Q;
  Zone_High : Q;
  Zone_Range : string;
  Status : string;
  Detected : string;
  Strength : string
}.

Section ScanStocks.

(** The module globals. *)
Variable MIN_MOVE : Q.
Variable LOOKBACK : Z.
Variable TOLERANCE : Q.

(** The download, [yf.Ticker(symbol).history(period="60d", interval="1h")]:
    [None] when it raises. *)
Variable history : string -> option DataFrame.

(** The formatting built-ins: [round(x, 2)], the f-string of the zone
    range, [strftime('%Y-%m-%d %H:%M')] and the percentage f-string. *)
Variable round2 : Q -> Q.
Variable format_range : Q -> Q -> string.
Variable strftime : Z -> string.
Variable format_percent : fp -> string.

(** [fetch_stock_data(symbol)]: every exception gives [None]. *)
Definition fetch (symbol : string) : option DataFrame :=
  match history symbol with
  | None => None
  | Some h => Aggregator.fetch_stock_data h
  end.

(** The body of the loop of [scan_stocks], on the results so far;
    [df.iloc[-1]] is the row at [len(df) - 1].  Progress updates and the
    pause between stocks are left out. *)
Definition scan_symbol (results : list ScanResult) (symbol : string)
  : result (list ScanResult) :=
  match fetch symbol with
  | None => Ret results
  | Some df =>
      if (length df <? 10)%nat then Ret results
      else
        order_block <- detect_bullish_order_block MIN_MOVE LOOKBACK (Some df) ;;
        match order_block with
        | None => Ret results
        | Some ob =>
            current_candle <- iloc df (length df - 1) ;;
            let current_price := Close current_candle in
            let current_low := Low current_candle in
            let current_high := High current_candle in
            let status :=
              check_zone_interaction TOLERANCE current_price current_low
                                     current_high (zone_high ob) (zone_low ob) in
            Ret (results ++
                 [mkScanResult
                    (Str.replace ".NS" "" symbol)
                    (round2 current_price)
                    (round2 (zone_low ob))
                    (round2 (zone_high ob))
                    (format_range (round2 (zone_low ob)) (round2 (zone_high ob)))
                    status
                    (strftime (ob_timestamp ob))
                    (format_percent (strength ob))])
        end
  end.

(** [scan_stocks]: the list stored in [self.scan_results]. *)
Fixpoint scan_from (results : list ScanResult) (stock_list : list string)
  : result (list ScanResult) :=
  match stock_list with
  | [] => Ret results
  | symbol :: rest =>
      results' <- scan_symbol results symbol ;; scan_from results' rest
  end.

Definition scan_stocks (stock_list : list string) : result (list ScanResult) :=
  scan_from [] stock_list.

End ScanStocks.

Definition inside_or_touching (status : string) : bool :=
  ((status =? "Inside Zone") || (status =? "Touching Zone"))%string.

(** [display_results]: the rows inserted in the table, in order, each with
    its colour tag. *)
Definition display_results (filter_option : string)
           (scan_results : list ScanResult) : list (ScanResult * string) :=
  flat_map
    (fun result =>
       if (filter_option =? "Inside Zone Only")%string
          && negb (Status result =? "Inside Zone")%string
       then []
       else if (filter_option =? "Inside or Touching")%string
               && negb (inside_or_touching (Status result))
       then []
       else if (filter_option =? "Active Zones")%string
               && negb (inside_or_touching (Status result))
       then []
       else
         let tag :=
           if (Status result =? "Inside Zone")%string then "inside"%string
           else if (Status result =? "Touching Zone")%string
                then "touching"%string
                else "other"%string in
         [(result, tag)])
    scan_results.

(** The numbers [update_metrics] writes in the four boxes. *)
Record Metrics : Type := mkMetrics {
  total_scanned : Z;
  inside_zone : Z;
  touching_zone : Z;
  other : Z
}.

Definition update_metrics (scan_results : list ScanResult) : Metrics :=
  let total := Z.of_nat (length scan_results) in
  let inside :=
    Z.of_nat (length (filter (fun r => (Status r =? "Inside Zone")%string)
                             scan_results)) in
  let touching :=
    Z.of_nat (length (filter (fun r => (Status r =? "Touching Zone")%string)
                             scan_results)) in
  let other := (total - inside - touching)%Z in
  mkMetrics total inside touching other.

(** [l1] is [l2] with some items left out, order kept. *)
Inductive subsequence {A : Type} : list A -> list A -> Prop :=
| subsequence_nil : subsequence [] []
| subsequence_skip (x : A) (l1 l2 : list A) :
    subsequence l1 l2 -> subsequence l1 (x :: l2)
| subsequence_take (x : A) (l1 l2 : list A) :
    subsequence l1 l2 -> subsequence (x :: l1) (x :: l2).

(** A download for three symbols: ten four-hour bars with one
    bearish-then-bullish pattern, three bars, and a failure. *)
Module ScanSamples.

Definition quiet (t : Z) : Bar := mkBar t 100 101 99 100 10.

Definition ten_bars : DataFrame :=
  [quiet 0; quiet 14400; quiet 28800; quiet 43200; quiet 57600;
   mkBar 72000 100 102 98 97 10;
   mkBar 86400 97 110 96 108 10;
   mkBar 100800 108 111 107 109 10;
   mkBar 115200 109 109 105 106 10;
   mkBar 129600 106 107 104 105 10].

Definition provider (symbol : string) : option DataFrame :=
  if (symbol =? "TCS.NS")%string then Some ten_bars
  else if (symbol =? "INFY.NS")%string then Some (firstn 3 ten_bars)
       else None.

Definition stock_list : list string := ["INFY.NS"; "TCS.NS"; "WIPRO.NS"]%string.

(** The one row the scan of [stock_list] gives when numbers are left
    unrounded and the formatted fields are left empty. *)
Definition tcs_row : ScanResult :=
  mkScanResult "TCS" 105 98 102 "" "Above Zone" "" "".

Definition scan : result (list ScanResult) :=
  scan_stocks MIN_BULLISH_MOVE LOOKBACK_CANDLES ZONE_TOUCH_TOLERANCE provider
              (fun q => q) (fun _ _ => EmptyString) (fun _ => EmptyString)
              (fun _ => EmptyString) stock_list.

End ScanSamples.

(* ================================================================== *)
(** * Properties *)

(* ------------------------------------------------------------------ *)
(** ** Comparisons *)

Lemma Qlt_bool_iff (x y : Q) : Qlt_bool x y = true <-> (x < y)%Q.
Proof.
  unfold Qlt_bool. rewrite negb_true_iff.
  split.
  - intros H. apply Qnot_le_lt. intros Hle.
    apply Qle_bool_iff in Hle. congruence.
  - intros H. destruct (Qle_bool y x) eqn:E; [|reflexivity].
    apply Qle_bool_iff in E. exfalso. exact (Qlt_not_le _ _ H E).
Qed.

(* ------------------------------------------------------------------ *)
(** ** The zone interaction classifier *)

Lemma status_label_inj (s t : InteractionStatus) :
  status_label s = status_label t -> s = t.
Proof. destruct s, t; simpl; intros H; try reflexivity; discriminate H. Qed.

Lemma check_zone_interaction_label (tol p l h zh zl : Q) :
  check_zone_interaction tol p l h zh zl
  = status_label (classify_interaction p l h zh zl tol).
Proof.
  unfold check_zone_interaction, classify_interaction.
  destruct (Qle_bool zl p && Qle_bool p zh); [reflexivity|].
  destruct ((Qle_bool (l - zh * tol) zh && Qle_bool zh (h + zh * tol))
            || (Qle_bool (l - zh * tol) zl && Qle_bool zl (h + zh * tol)));
    [reflexivity|].
  destruct (Qlt_bool zh l); reflexivity.
Qed.

(** C2: for every input with low <= high, zone_low <= zone_high and
    tolerance >= 0 the classifier returns a value, and that value is
    exactly one of the four status strings. *)
Theorem classify_total_exclusive (tol p l h zh zl : Q) :
  (l <= h)%Q -> (zl <= zh)%Q -> (0 <= tol)%Q ->
  exists! s : InteractionStatus,
    check_zone_interaction tol p l h zh zl = status_label s.
Proof.
  intros _ _ _.
  exists (classify_interaction p l h zh zl tol). split.
  - apply check_zone_interaction_label.
  - intros s' Hs'. apply status_label_inj.
    rewrite <- Hs'. symmetry. apply check_zone_interaction_label.
Qed.

Lemma classify_total_exclusive_witness :
  exists! s : InteractionStatus,
    check_zone_interaction ZONE_TOUCH_TOLERANCE 100 99 101 105 102
    = status_label s.
Proof.
  apply (classify_total_exclusive ZONE_TOUCH_TOLERANCE 100 99 101 105 102).
  - unfold Qle; simpl; lia.
  - unfold Qle; simpl; lia.
  - unfold Qle; simpl; lia.
Defined.

(** C4: the zone is a closed interval and its test comes first: whenever
    zone_low <= close <= zone_high the result is "Inside Zone", whatever
    low, high and the tolerance are; in particular at close = zone_low and
    at close = zone_high. *)
Theorem inside_zone_closed (tol p l h zh zl : Q) :
  (zl <= zh)%Q ->
  ((zl <= p <= zh)%Q ->
   check_zone_interaction tol p l h zh zl = "Inside Zone"%string)
  /\ check_zone_interaction tol zl l h zh zl = "Inside Zone"%string
  /\ check_zone_interaction tol zh l h zh zl = "Inside Zone"%string.
Proof.
  intros Hz.
  assert (Hin : forall x, (zl <= x <= zh)%Q ->
             check_zone_interaction tol x l h zh zl = "Inside Zone"%string).
  { intros x [H1 H2]. unfold check_zone_interaction.
    apply Qle_bool_iff in H1. apply Qle_bool_iff in H2.
    rewrite H1, H2. reflexivity. }
  split; [exact (Hin p)|]. split.
  - apply Hin. split; [apply Qle_refl | exact Hz].
  - apply Hin. split; [exact Hz | apply Qle_refl].
Qed.

Lemma inside_zone_closed_witness :
  ((102 <= 103 <= 105)%Q ->
   check_zone_interaction ZONE_TOUCH_TOLERANCE 103 90 110 105 102
   = "Inside Zone"%string)
  /\ check_zone_interaction ZONE_TOUCH_TOLERANCE 102 90 110 105 102
     = "Inside Zone"%string
  /\ check_zone_interaction ZONE_TOUCH_TOLERANCE 105 90 110 105 102
     = "Inside Zone"%string.
Proof.
  apply (inside_zone_closed ZONE_TOUCH_TOLERANCE 103 90 110 105 102).
  unfold Qle; simpl; lia.
Defined.

(** C5: with tolerance 0, a bar (low <= high) whose high equals zone_low
    and whose close lies outside the zone is "Touching Zone", not
    "Above Zone" and not "Below Zone". *)
Theorem touching_at_zero_tolerance (p l h zh zl : Q) :
  (l <= h)%Q -> (h == zl)%Q -> ~ (zl <= p <= zh)%Q ->
  check_zone_interaction 0 p l h zh zl = "Touching Zone"%string
  /\ check_zone_interaction 0 p l h zh zl <> "Above Zone"%string
  /\ check_zone_interaction 0 p l h zh zl <> "Below Zone"%string.
Proof.
  intros Hlh Heq Hout.
  assert (E : check_zone_interaction 0 p l h zh zl = "Touching Zone"%string).
  { unfold check_zone_interaction.
    destruct (Qle_bool zl p && Qle_bool p zh) eqn:Ein.
    - exfalso. apply Hout. apply andb_true_iff in Ein.
      destruct Ein as [H1 H2]. split; apply Qle_bool_iff; assumption.
    - assert (T1 : Qle_bool (l - zh * 0) zl = true).
      { apply Qle_bool_iff. rewrite <- Heq.
        setoid_replace (l - zh * 0)%Q with l by ring. exact Hlh. }
      assert (T2 : Qle_bool zl (h + zh * 0) = true).
      { apply Qle_bool_iff. rewrite <- Heq.
        setoid_replace (h + zh * 0)%Q with h by ring. apply Qle_refl. }
      rewrite T1, T2. rewrite orb_true_r. reflexivity. }
  rewrite E. repeat split; discriminate.
Qed.

Lemma touching_at_zero_tolerance_witness :
  check_zone_interaction 0 100 99 102 105 102 = "Touching Zone"%string
  /\ check_zone_interaction 0 100 99 102 105 102 <> "Above Zone"%string
  /\ check_zone_interaction 0 100 99 102 105 102 <> "Below Zone"%string.
Proof.
  apply (touching_at_zero_tolerance 100 99 102 105 102).
  - unfold Qle; simpl; lia.
  - reflexivity.
  - intros [H _]. unfold Qle in H; simpl in H; lia.
Defined.

(** The bar invariant low <= high is used: on a malformed bar with
    low = 5 above high = 3 = zone_low the same tests give "Above Zone". *)
Remark malformed_bar_is_not_touching :
  check_zone_interaction 0 10 5 3 4 3 = "Above Zone"%string.
Proof. reflexivity. Qed.

(* ------------------------------------------------------------------ *)
(** ** Frames and the added columns *)

Lemma length_with_columns (w : list Bar) :
  length (with_columns w) = length w.
Proof. induction w as [|b rest IH]; simpl; [reflexivity | now rewrite IH]. Qed.

Lemma map_bar_with_columns (w : list Bar) : map bar (with_columns w) = w.
Proof. induction w as [|b rest IH]; simpl; [reflexivity | now rewrite IH]. Qed.

Lemma nth_error_with_columns (w : list Bar) :
  forall i,
    nth_error (with_columns w) i
    = option_map (fun b => row_of b (nth_error w (S i))) (nth_error w i).
Proof.
  induction w as [|b rest IH]; intros [|i]; try reflexivity.
  exact (IH i).
Qed.

Lemma iloc_slice_map {A B : Type} (f : A -> B) (l : list A) (a b : nat) :
  map f (iloc_slice l a b) = iloc_slice (map f l) a b.
Proof. unfold iloc_slice. now rewrite skipn_map, firstn_map. Qed.

Lemma highs_of_rows (w : list Bar) (a b : nat) :
  map (fun r => High (bar r)) (iloc_slice (with_columns w) a b)
  = map High (iloc_slice w a b).
Proof.
  rewrite <- (map_map bar High), iloc_slice_map, map_bar_with_columns.
  reflexivity.
Qed.

Lemma length_tail_le {A : Type} (n : Z) (df : list A) :
  (length (tail n df) <= length df)%nat.
Proof.
  unfold tail.
  destruct (n =? 0)%Z; [simpl; lia|].
  destruct (0 <? n)%Z; rewrite length_skipn; lia.
Qed.

Lemma last_item_app_single {A : Type} (l : list A) (x : A) :
  last_item (l ++ [x]) = Some x.
Proof.
  induction l as [|y rest IH]; [reflexivity|].
  simpl. destruct (rest ++ [x]) eqn:E.
  - destruct rest; discriminate E.
  - exact IH.
Qed.

Lemma last_item_In {A : Type} (l : list A) (x : A) :
  last_item l = Some x -> In x l.
Proof.
  induction l as [|y rest IH]; simpl; [discriminate|].
  destruct rest as [|z rest'].
  - intros H; injection H as ->. now left.
  - intros H. right. apply IH. exact H.
Qed.

Lemma last_item_None {A : Type} (l : list A) :
  last_item l = None -> l = [].
Proof.
  induction l as [|y rest IH]; [reflexivity|].
  simpl. destruct rest as [|z rest']; [discriminate|].
  intros H. apply IH in H. discriminate H.
Qed.

(* ------------------------------------------------------------------ *)
(** ** The scanning loop *)

Section DetectorFacts.

Variable MIN : Q.

Lemma confirmed_blocks_app (w : list Bar) (idx1 idx2 : list nat) :
  confirmed_blocks MIN w (idx1 ++ idx2)
  = confirmed_blocks MIN w idx1 ++ confirmed_blocks MIN w idx2.
Proof. unfold confirmed_blocks. apply flat_map_app. Qed.

(** One iteration at an index whose successor is still in the window:
    no exception, and the list grows by the block confirmed there. *)
Lemma scan_step_confirmed (w : list Bar) (acc : list OrderBlock) (i : nat) :
  (S i < length w)%nat ->
  scan_step MIN (with_columns w) acc i
  = Ret (acc ++ confirmed_blocks MIN w [i]).
Proof.
  intros Hi.
  destruct (nth_error w i) as [c|] eqn:Ec;
    [|apply nth_error_None in Ec; lia].
  destruct (nth_error w (S i)) as [n|] eqn:En;
    [|apply nth_error_None in En; lia].
  assert (Hc : confirmed_blocks MIN w [i]
               = match confirmed_block MIN w i with
                 | Some ob => [ob]
                 | None => []
                 end).
  { unfold confirmed_blocks. cbn [flat_map]. apply app_nil_r. }
  rewrite Hc. unfold confirmed_block. rewrite Ec, En.
  unfold scan_step, iloc.
  rewrite !Nat.add_1_r.
  rewrite nth_error_map, !nth_error_with_columns, Ec, En.
  cbn [option_map bind]. rewrite highs_of_rows.
  cbn [row_of is_bearish is_bullish move_percent bar].
  destruct (Qlt_bool (Close c) (Open c) && Qlt_bool (Open n) (Close n)
            && fge (fdiv (fsub (Fin (High n)) (Low c)) (Low c)) MIN);
    cbn [andb]; [|now rewrite app_nil_r].
  destruct (fge (fdiv (fsub (series_max (map High (iloc_slice w (S i) (i + 4))))
                            (Low c)) (Low c)) MIN);
    [reflexivity | now rewrite app_nil_r].
Qed.

Lemma scan_loop_confirmed (w : list Bar) :
  forall (idx : list nat) (acc : list OrderBlock),
    (forall i, In i idx -> (S i < length w)%nat) ->
    for_each (scan_step MIN (with_columns w)) idx acc
    = Ret (acc ++ confirmed_blocks MIN w idx).
Proof.
  induction idx as [|i rest IH]; intros acc Hidx.
  - simpl. now rewrite app_nil_r.
  - cbn [for_each].
    rewrite scan_step_confirmed by (apply Hidx; now left).
    cbn [bind]. rewrite IH by (intros k Hk; apply Hidx; now right).
    rewrite <- app_assoc.
    change (i :: rest) with ([i] ++ rest).
    now rewrite confirmed_blocks_app.
Qed.

Lemma candidate_indices_in_window (w : list Bar) (i : nat) :
  In i (candidate_indices (with_columns w)) -> (i + 4 <= length w)%nat.
Proof.
  unfold candidate_indices, range. rewrite length_with_columns.
  intros H. apply in_seq in H. lia.
Qed.

Lemma detect_confirmed_blocks (LB : Z) (df : DataFrame) :
  (5 <= length df)%nat ->
  detect_bullish_order_block MIN LB (Some df)
  = Ret (last_item (confirmed_blocks MIN (window LB df)
                                     (range (length (window LB df) - 3)))).
Proof.
  intros Hlen. unfold detect_bullish_order_block.
  destruct (Nat.ltb_spec (length df) 5) as [Hlt|_]; [lia|].
  cbv zeta. unfold recent.
  rewrite scan_loop_confirmed.
  - cbn [bind app]. unfold candidate_indices.
    now rewrite length_with_columns.
  - intros i Hi. apply candidate_indices_in_window in Hi. lia.
Qed.

Lemma confirmed_blocks_none (w : list Bar) (idx : list nat) :
  (forall k, In k idx -> confirmed_block MIN w k = None) ->
  confirmed_blocks MIN w idx = [].
Proof.
  induction idx as [|i rest IH]; intros Hnone; [reflexivity|].
  change (i :: rest) with ([i] ++ rest).
  rewrite confirmed_blocks_app, IH by (intros k Hk; apply Hnone; now right).
  unfold confirmed_blocks. cbn [flat_map].
  rewrite (Hnone i) by now left. reflexivity.
Qed.

(** The block confirmed at the last confirming index of [range n] is the
    last item of the list the loop builds. *)
Lemma confirmed_blocks_last (w : list Bar) (n j : nat) (ob : OrderBlock) :
  (j < n)%nat ->
  confirmed_block MIN w j = Some ob ->
  (forall k, (j < k < n)%nat -> confirmed_block MIN w k = None) ->
  last_item (confirmed_blocks MIN w (range n)) = Some ob.
Proof.
  intros Hj Hob Hlater. unfold range.
  replace n with (j + (1 + (n - S j)))%nat by lia.
  rewrite seq_app, (seq_app 1). cbn [seq Nat.add].
  rewrite !confirmed_blocks_app.
  rewrite (confirmed_blocks_none w (seq (j + 1) (n - S j))).
  - rewrite app_nil_r. unfold confirmed_blocks at 2. cbn [flat_map].
    rewrite Hob. cbn [app]. apply last_item_app_single.
  - intros k Hk. apply in_seq in Hk. apply Hlater. lia.
Qed.

Lemma confirmed_blocks_In (w : list Bar) (idx : list nat) (ob : OrderBlock) :
  In ob (confirmed_blocks MIN w idx) ->
  exists i, In i idx /\ confirmed_block MIN w i = Some ob.
Proof.
  unfold confirmed_blocks. intros H. apply in_flat_map in H.
  destruct H as [i [Hi Hob]]. exists i. split; [exact Hi|].
  destruct (confirmed_block MIN w i) as [ob'|]; [|destruct Hob].
  destruct Hob as [->|[]]. reflexivity.
Qed.

(** What a confirmed block records about the bar it comes from. *)
Lemma confirmed_block_fields (w : list Bar) (i : nat) (ob : OrderBlock) :
  confirmed_block MIN w i = Some ob ->
  exists current next,
    nth_error w i = Some current /\ nth_error w (S i) = Some next
    /\ Qlt_bool (Close current) (Open current) = true
    /\ Qlt_bool (Open next) (Close next) = true
    /\ fge (strength ob) MIN = true
    /\ ob = mkOrderBlock (High current) (Low current) (timestamp current)
                         (fdiv (fsub (Fin (High next)) (Low current))
                               (Low current)).
Proof.
  unfold confirmed_block. intros H.
  destruct (nth_error w i) as [c|]; [|discriminate H].
  destruct (nth_error w (S i)) as [n|]; [|discriminate H].
  exists c, n.
  destruct (Qlt_bool (Close c) (Open c)) eqn:E1; [|discriminate H].
  destruct (Qlt_bool (Open n) (Close n)) eqn:E2; [|discriminate H].
  destruct (fge (fdiv (fsub (Fin (High n)) (Low c)) (Low c)) MIN) eqn:E3;
    [|discriminate H].
  cbn [andb] in H.
  destruct (fge _ MIN) in H; [|discriminate H].
  injection H as <-. cbn [strength]. repeat split; assumption.
Qed.

End DetectorFacts.

Lemma In_tail {A : Type} (n : Z) (df : list A) (x : A) :
  In x (tail n df) -> In x df.
Proof.
  assert (Hskip : forall k, In x (skipn k df) -> In x df).
  { intros k H. rewrite <- (firstn_skipn k df). apply in_or_app. now right. }
  unfold tail.
  destruct (n =? 0)%Z; [intros []|].
  destruct (0 <? n)%Z; apply Hskip.
Qed.

(* ------------------------------------------------------------------ *)
(** ** The detector *)

(** The detector returns on every input: no positional access of the loop
    leaves the window. *)
Corollary detect_never_raises (MIN : Q) (LB : Z) (df : option DataFrame) :
  exists r, detect_bullish_order_block MIN LB df = Ret r.
Proof.
  destruct df as [df|]; [|now exists None].
  destruct (Nat.ltb_spec (length df) 5) as [Hlt|Hge].
  - exists None. unfold detect_bullish_order_block.
    apply Nat.ltb_lt in Hlt. now rewrite Hlt.
  - eexists. apply detect_confirmed_blocks. exact Hge.
Qed.

(** C1: when two candidates are confirmed at rows i < j of the window and
    j is the last confirmed row the loop visits, the detector returns the
    block of row j: zone_high and zone_low are that bar's high and low,
    the timestamp is its index label and the strength is its
    move_percent, (next.high - low) / low. *)
Theorem detect_returns_last_confirmed
        (MIN : Q) (LB : Z) (df : DataFrame) (i j : nat) (obi obj : OrderBlock) :
  (i < j)%nat ->
  (j < length (window LB df) - 3)%nat ->
  confirmed_block MIN (window LB df) i = Some obi ->
  confirmed_block MIN (window LB df) j = Some obj ->
  (forall k, (j < k < length (window LB df) - 3)%nat ->
             confirmed_block MIN (window LB df) k = None) ->
  detect_bullish_order_block MIN LB (Some df) = Ret (Some obj)
  /\ exists current next,
      nth_error (window LB df) j = Some current
      /\ nth_error (window LB df) (S j) = Some next
      /\ zone_high obj = High current
      /\ zone_low obj = Low current
      /\ ob_timestamp obj = timestamp current
      /\ strength obj
         = fdiv (fsub (Fin (High next)) (Low current)) (Low current).
Proof.
  intros Hij Hj _ Hobj Hlast.
  assert (Hlen : (5 <= length df)%nat).
  { pose proof (length_tail_le LB df) as Hle. unfold window in Hj. lia. }
  split.
  - rewrite detect_confirmed_blocks by exact Hlen.
    f_equal. apply (confirmed_blocks_last MIN _ _ j); assumption.
  - destruct (confirmed_block_fields MIN _ _ _ Hobj)
      as (c & n & Hc & Hn & _ & _ & _ & ->).
    exists c, n. cbn [zone_high zone_low ob_timestamp strength].
    repeat split; assumption.
Qed.

Lemma detect_returns_last_confirmed_witness :
  detect_bullish_order_block MIN_BULLISH_MOVE LOOKBACK_CANDLES
                             (Some Samples.two_block_series)
  = Ret (Some Samples.second_block)
  /\ exists current next,
      nth_error (window LOOKBACK_CANDLES Samples.two_block_series) 2
      = Some current
      /\ nth_error (window LOOKBACK_CANDLES Samples.two_block_series) 3
         = Some next
      /\ zone_high Samples.second_block = High current
      /\ zone_low Samples.second_block = Low current
      /\ ob_timestamp Samples.second_block = timestamp current
      /\ strength Samples.second_block
         = fdiv (fsub (Fin (High next)) (Low current)) (Low current).
Proof.
  apply (detect_returns_last_confirmed
           MIN_BULLISH_MOVE LOOKBACK_CANDLES Samples.two_block_series
           0 2 Samples.scenario_block Samples.second_block).
  - lia.
  - vm_compute. lia.
  - vm_compute. reflexivity.
  - vm_compute. reflexivity.
  - intros k Hk. exfalso.
    change (length (window LOOKBACK_CANDLES Samples.two_block_series))
      with 6%nat in Hk.
    simpl in Hk. lia.
Defined.

(** C8: under low <= high for every input bar, a returned block has
    zone_low <= zone_high and strength >= the minimum move, and it carries
    the index label, the low and the high of a bearish bar of the window
    at a row the loop visits. *)
Theorem returned_block_invariant
        (MIN : Q) (LB : Z) (df : DataFrame) (ob : OrderBlock) :
  (forall b, In b df -> (Low b <= High b)%Q) ->
  detect_bullish_order_block MIN LB (Some df) = Ret (Some ob) ->
  (zone_low ob <= zone_high ob)%Q
  /\ fge (strength ob) MIN = true
  /\ (forall s, strength ob = Fin s -> (MIN <= s)%Q)
  /\ exists i origin,
      In i (candidate_indices (recent LB df))
      /\ nth_error (window LB df) i = Some origin
      /\ (Close origin < Open origin)%Q
      /\ ob_timestamp ob = timestamp origin
      /\ zone_low ob = Low origin
      /\ zone_high ob = High origin.
Proof.
  intros Hbars Hret.
  destruct (Nat.ltb_spec (length df) 5) as [Hlt|Hge].
  - unfold detect_bullish_order_block in Hret.
    apply Nat.ltb_lt in Hlt. rewrite Hlt in Hret. discriminate Hret.
  - rewrite detect_confirmed_blocks in Hret by exact Hge.
    injection Hret as Hret. apply last_item_In in Hret.
    apply confirmed_blocks_In in Hret. destruct Hret as [i [Hi Hob]].
    destruct (confirmed_block_fields MIN _ _ _ Hob)
      as (c & n & Hc & Hn & Hbear & _ & Hstr & Heq).
    split; [|split; [exact Hstr|split]].
    + subst ob. cbn [zone_low zone_high]. apply Hbars.
      apply (In_tail LB). apply nth_error_In with (n := i). exact Hc.
    + intros s Hs. rewrite Hs in Hstr. apply Qle_bool_iff. exact Hstr.
    + exists i, c. subst ob. cbn [ob_timestamp zone_low zone_high].
      repeat split; try assumption.
      * unfold candidate_indices, recent. now rewrite length_with_columns.
      * apply Qlt_bool_iff. exact Hbear.
Qed.

Lemma returned_block_invariant_witness :
  (zone_low Samples.scenario_block <= zone_high Samples.scenario_block)%Q
  /\ fge (strength Samples.scenario_block) MIN_BULLISH_MOVE = true
  /\ (forall s, strength Samples.scenario_block = Fin s
                -> (MIN_BULLISH_MOVE <= s)%Q)
  /\ exists i origin,
      In i (candidate_indices (recent LOOKBACK_CANDLES Samples.five_bar_series))
      /\ nth_error (window LOOKBACK_CANDLES Samples.five_bar_series) i
         = Some origin
      /\ (Close origin < Open origin)%Q
      /\ ob_timestamp Samples.scenario_block = timestamp origin
      /\ zone_low Samples.scenario_block = Low origin
      /\ zone_high Samples.scenario_block = High origin.
Proof.
  apply (returned_block_invariant
           MIN_BULLISH_MOVE LOOKBACK_CANDLES Samples.five_bar_series
           Samples.scenario_block).
  - intros b Hb. simpl in Hb.
    repeat (destruct Hb as [<-|Hb]; [unfold Qle; simpl; lia|]).
    destruct Hb.
  - vm_compute. reflexivity.
Defined.

(** C3, as the code has it: the guard counts the bars of the whole series,
    before the window is cut.  A series of fewer than 5 bars, or a window
    of fewer than 4 bars, gives "no result" for every configuration, and
    so does a missing series; nothing is raised. *)
Theorem detect_insufficient_bars (MIN : Q) (LB : Z) (df : DataFrame) :
  (length (window LB df) < 5)%nat ->
  (length df < 5)%nat \/ length (window LB df) <> 4%nat ->
  detect_bullish_order_block MIN LB (Some df) = Ret None
  /\ detect_bullish_order_block MIN LB None = Ret None.
Proof.
  intros Hwin Hcase. split; [|reflexivity].
  destruct (Nat.ltb_spec (length df) 5) as [Hlt|Hge].
  - unfold detect_bullish_order_block.
    apply Nat.ltb_lt in Hlt. now rewrite Hlt.
  - rewrite detect_confirmed_blocks by exact Hge.
    replace (length (window LB df) - 3)%nat with 0%nat by lia.
    reflexivity.
Qed.

Lemma detect_insufficient_bars_witness :
  detect_bullish_order_block MIN_BULLISH_MOVE LOOKBACK_CANDLES
                             (Some Samples.scenario_window) = Ret None
  /\ detect_bullish_order_block MIN_BULLISH_MOVE LOOKBACK_CANDLES None
     = Ret None.
Proof.
  apply (detect_insufficient_bars
           MIN_BULLISH_MOVE LOOKBACK_CANDLES Samples.scenario_window).
  - vm_compute. lia.
  - left. vm_compute. lia.
Defined.

(** C3 as stated fails: with lookback_candles = 4 the window of a five-bar
    series has four bars, fewer than 5, and the detector returns a block. *)
Lemma four_bar_window_yields_block :
  (length (window 4 Samples.five_bar_series) < 5)%nat
  /\ detect_bullish_order_block MIN_BULLISH_MOVE 4
                                (Some Samples.five_bar_series)
     = Ret (Some Samples.scenario_block).
Proof. split; [vm_compute; lia | vm_compute; reflexivity]. Qed.

(** C10: at every row i the loop visits, i <= len - 4, so the slice
    [i+1 : i+4] of the follow-through highs holds exactly the three rows
    i+1, i+2, i+3 and is not clipped at the end of the window. *)
Theorem follow_through_has_three_bars (LB : Z) (df : DataFrame) (i : nat) :
  In i (candidate_indices (recent LB df)) ->
  (4 <= length (recent LB df))%nat
  /\ (i <= length (recent LB df) - 4)%nat
  /\ length (iloc_slice (recent LB df) (i + 1) (i + 4)) = 3%nat
  /\ exists r1 r2 r3,
      iloc_slice (recent LB df) (i + 1) (i + 4) = [r1; r2; r3]
      /\ iloc (recent LB df) (i + 1) = Ret r1
      /\ iloc (recent LB df) (i + 2) = Ret r2
      /\ iloc (recent LB df) (i + 3) = Ret r3.
Proof.
  intros Hi. unfold candidate_indices, range in Hi. apply in_seq in Hi.
  set (rows := recent LB df) in *.
  assert (Hlen : (i + 4 <= length rows)%nat) by lia.
  assert (Hslice : length (iloc_slice rows (i + 1) (i + 4)) = 3%nat).
  { unfold iloc_slice. rewrite length_firstn, length_skipn. lia. }
  repeat split; try lia.
  unfold iloc_slice in *.
  replace (i + 4 - (i + 1))%nat with 3%nat in * by lia.
  assert (Hnth : forall d, (d < 3)%nat ->
            nth_error (firstn 3 (skipn (i + 1) rows)) d
            = nth_error rows (i + 1 + d)).
  { intros d Hd. rewrite nth_error_firstn.
    apply Nat.ltb_lt in Hd. rewrite Hd. apply nth_error_skipn. }
  destruct (firstn 3 (skipn (i + 1) rows)) as [|r1 [|r2 [|r3 [|r4 rest]]]];
    try discriminate Hslice.
  exists r1, r2, r3. split; [reflexivity|].
  unfold iloc.
  pose proof (Hnth 0%nat ltac:(lia)) as H0.
  pose proof (Hnth 1%nat ltac:(lia)) as H1.
  pose proof (Hnth 2%nat ltac:(lia)) as H2.
  cbn [nth_error] in H0, H1, H2.
  replace (i + 1 + 0)%nat with (i + 1)%nat in H0 by lia.
  replace (i + 1 + 1)%nat with (i + 2)%nat in H1 by lia.
  replace (i + 1 + 2)%nat with (i + 3)%nat in H2 by lia.
  rewrite <- H0, <- H1, <- H2. repeat split; reflexivity.
Qed.

Lemma follow_through_has_three_bars_witness :
  (4 <= length (recent LOOKBACK_CANDLES Samples.two_block_series))%nat
  /\ (2 <= length (recent LOOKBACK_CANDLES Samples.two_block_series) - 4)%nat
  /\ length (iloc_slice (recent LOOKBACK_CANDLES Samples.two_block_series)
                        (2 + 1) (2 + 4)) = 3%nat
  /\ exists r1 r2 r3,
      iloc_slice (recent LOOKBACK_CANDLES Samples.two_block_series)
                 (2 + 1) (2 + 4) = [r1; r2; r3]
      /\ iloc (recent LOOKBACK_CANDLES Samples.two_block_series) (2 + 1)
         = Ret r1
      /\ iloc (recent LOOKBACK_CANDLES Samples.two_block_series) (2 + 2)
         = Ret r2
      /\ iloc (recent LOOKBACK_CANDLES Samples.two_block_series) (2 + 3)
         = Ret r3.
Proof.
  apply (follow_through_has_three_bars
           LOOKBACK_CANDLES Samples.two_block_series 2).
  vm_compute. right. right. left. reflexivity.
Defined.

(* ------------------------------------------------------------------ *)
(** ** Collect-then-take-last against overwrite-on-confirm *)

Lemma track_step_tracks (MIN : Q) (rows : list Row)
      (acc : list OrderBlock) (tracked : option OrderBlock) (i : nat) :
  last_item acc = tracked ->
  tracks (scan_step MIN rows acc i) (track_step MIN rows tracked i).
Proof.
  intros Hacc. unfold scan_step, track_step.
  destruct (iloc rows i) as [current|]; [|exact I].
  destruct (iloc rows (i + 1)) as [next_candle|]; [|exact I].
  cbn [bind].
  destruct (is_bearish current && is_bullish next_candle
            && fge (move_percent current) MIN); [|exact Hacc].
  cbv zeta.
  destruct (fge _ MIN); [|exact Hacc].
  destruct (iloc (map (fun r => timestamp (bar r)) rows) i) as [index_i|];
    [|exact I].
  cbn [bind tracks]. apply last_item_app_single.
Qed.

Lemma track_loop_tracks (MIN : Q) (rows : list Row) :
  forall (idx : list nat) (acc : list OrderBlock) (tracked : option OrderBlock),
    last_item acc = tracked ->
    tracks (for_each (scan_step MIN rows) idx acc)
           (for_each (track_step MIN rows) idx tracked).
Proof.
  induction idx as [|i rest IH]; intros acc tracked Hacc.
  - exact Hacc.
  - cbn [for_each].
    pose proof (track_step_tracks MIN rows acc tracked i Hacc) as Hstep.
    destruct (scan_step MIN rows acc i) as [acc'|],
             (track_step MIN rows tracked i) as [tracked'|];
      cbn [tracks] in Hstep; try contradiction.
    + cbn [bind]. apply IH. exact Hstep.
    + exact I.
Qed.

(** C9: on every series, present or missing, and every configuration, the
    collect-all-then-take-last detector and the single forward pass that
    overwrites the tracked block on each confirmation return the same
    result. *)
Theorem collect_then_last_equals_overwrite
        (MIN : Q) (LB : Z) (df : option DataFrame) :
  detect_bullish_order_block MIN LB df = detect_overwrite_on_confirm MIN LB df.
Proof.
  destruct df as [df|]; [|reflexivity].
  unfold detect_bullish_order_block, detect_overwrite_on_confirm.
  destruct (length df <? 5)%nat; [reflexivity|].
  cbv zeta.
  pose proof (track_loop_tracks MIN (recent LB df)
                (candidate_indices (recent LB df)) [] None eq_refl) as Hsim.
  destruct (for_each (scan_step MIN (recent LB df))
                     (candidate_indices (recent LB df)) []) as [blocks|],
           (for_each (track_step MIN (recent LB df))
                     (candidate_indices (recent LB df)) None) as [tracked|];
    cbn [tracks] in Hsim; try contradiction.
  - cbn [bind]. now rewrite Hsim.
  - reflexivity.
Qed.

(* ------------------------------------------------------------------ *)
(** ** The worked scenario *)

Lemma confirmed_block_shift (MIN : Q) (pre l : list Bar) (i : nat) :
  confirmed_block MIN (pre ++ l) (length pre + i) = confirmed_block MIN l i.
Proof.
  unfold confirmed_block.
  rewrite (nth_error_app2 pre l (n := length pre + i)) by lia.
  rewrite (nth_error_app2 pre l (n := S (length pre + i))) by lia.
  replace (length pre + i - length pre)%nat with i by lia.
  replace (S (length pre + i) - length pre)%nat with (S i) by lia.
  assert (Hslice : iloc_slice (pre ++ l) (length pre + i + 1) (length pre + i + 4)
                   = iloc_slice l (i + 1) (i + 4)).
  { unfold iloc_slice.
    replace (length pre + i + 4 - (length pre + i + 1))%nat
      with (i + 4 - (i + 1))%nat by lia.
    rewrite skipn_app, skipn_all2 by lia.
    replace (length pre + i + 1 - length pre)%nat with (i + 1)%nat by lia.
    reflexivity. }
  rewrite Hslice. reflexivity.
Qed.

(** A window of at least four rows whose fourth row from the end confirms
    yields that block: it is the last row the loop visits. *)
Lemma detect_last_visited_row
      (MIN : Q) (LB : Z) (df : DataFrame) (ob : OrderBlock) :
  (5 <= length df)%nat ->
  (4 <= length (window LB df))%nat ->
  confirmed_block MIN (window LB df) (length (window LB df) - 4) = Some ob ->
  detect_bullish_order_block MIN LB (Some df) = Ret (Some ob).
Proof.
  intros Hdf Hw Hob.
  rewrite detect_confirmed_blocks by exact Hdf.
  f_equal.
  apply (confirmed_blocks_last MIN _ _ (length (window LB df) - 4)).
  - lia.
  - exact Hob.
  - intros k Hk. lia.
Qed.

Lemma tail_keeps_suffix {A : Type} (n : Z) (pre suffix : list A) :
  (Z.of_nat (length suffix) <= n)%Z -> suffix <> [] ->
  exists pre', tail n (pre ++ suffix) = pre' ++ suffix.
Proof.
  intros Hn Hne. unfold tail.
  assert (Hpos : (0 < n)%Z).
  { destruct suffix; [contradiction|]. simpl length in Hn. lia. }
  destruct (Z.eqb_spec n 0) as [E|_]; [lia|].
  destruct (Z.ltb_spec 0 n) as [_|E]; [|lia].
  exists (skipn (length (pre ++ suffix) - Z.to_nat n) pre).
  rewrite skipn_app, length_app.
  replace (length pre + length suffix - Z.to_nat n - length pre)%nat
    with 0%nat by lia.
  reflexivity.
Qed.

(** C7, as the code has it: on every series that ends with the four bars
    of the scenario after at least one earlier bar, with
    min_bullish_move = 0.02 and lookback_candles >= 4, the detector
    returns the block zone_low = 98, zone_high = 102, timestamp = t0,
    strength = (110 - 98) / 98, which is 0.1224 to four decimals. *)
Theorem scenario_block_detected
        (LB : Z) (pre : DataFrame) (t0 t1 : Z) (v0 v1 : Q) (b2 b3 : Bar) :
  pre <> [] -> (4 <= LB)%Z -> High b2 = 111%Q -> High b3 = 109%Q ->
  exists ob,
    detect_bullish_order_block
      MIN_BULLISH_MOVE LB
      (Some (pre ++ [mkBar t0 100 102 98 97 v0;
                     mkBar t1 97 110 96 108 v1; b2; b3]))
    = Ret (Some ob)
    /\ zone_low ob = 98%Q /\ zone_high ob = 102%Q /\ ob_timestamp ob = t0
    /\ exists s,
        strength ob = Fin s
        /\ (s == (110 - 98) / 98)%Q
        /\ (Qabs (s - (1224 # 10000)) < 1 # 10000)%Q.
Proof.
  intros Hpre HLB H2 H3.
  set (four := [mkBar t0 100 102 98 97 v0; mkBar t1 97 110 96 108 v1; b2; b3]).
  exists (mkOrderBlock 102 98 t0 (Fin ((110 - 98) / 98))).
  split.
  - destruct (tail_keeps_suffix LB pre four) as [pre' Hw];
      [simpl; lia | discriminate |].
    apply detect_last_visited_row.
    + rewrite length_app. destruct pre; [contradiction|]. simpl. lia.
    + unfold window. rewrite Hw, length_app. simpl. lia.
    + unfold window. rewrite Hw, length_app.
      replace (length pre' + length four - 4)%nat
        with (length pre' + 0)%nat by (simpl; lia).
      rewrite confirmed_block_shift.
      unfold confirmed_block, four, iloc_slice.
      cbn [nth_error Nat.add Nat.sub skipn firstn map
           Close Open High Low timestamp].
      rewrite H2, H3. vm_compute. reflexivity.
  - cbn [zone_low zone_high ob_timestamp strength].
    repeat split.
    exists ((110 - 98) / 98)%Q. repeat split.
Qed.

Lemma scenario_block_detected_witness :
  exists ob,
    detect_bullish_order_block
      MIN_BULLISH_MOVE LOOKBACK_CANDLES
      (Some ([Samples.bar_before]
               ++ [mkBar 0 100 102 98 97 1000;
                   mkBar 14400 97 110 96 108 1000;
                   Samples.bar_t2; Samples.bar_t3]))
    = Ret (Some ob)
    /\ zone_low ob = 98%Q /\ zone_high ob = 102%Q /\ ob_timestamp ob = 0%Z
    /\ exists s,
        strength ob = Fin s
        /\ (s == (110 - 98) / 98)%Q
        /\ (Qabs (s - (1224 # 10000)) < 1 # 10000)%Q.
Proof.
  apply (scenario_block_detected
           LOOKBACK_CANDLES [Samples.bar_before] 0 14400 1000 1000
           Samples.bar_t2 Samples.bar_t3).
  - discriminate.
  - unfold LOOKBACK_CANDLES. lia.
  - reflexivity.
  - reflexivity.
Defined.

(** C7 as stated fails: the four bars of the scenario taken as the series
    are fewer than the five bars the guard asks for, and the detector
    returns "no result", with the shipped lookback and with a lookback of
    four alike. *)
Lemma scenario_window_alone_no_result :
  length Samples.scenario_window = 4%nat
  /\ detect_bullish_order_block MIN_BULLISH_MOVE LOOKBACK_CANDLES
                                (Some Samples.scenario_window) = Ret None
  /\ detect_bullish_order_block MIN_BULLISH_MOVE 4
                                (Some Samples.scenario_window) = Ret None.
Proof. repeat split. Qed.

(* ------------------------------------------------------------------ *)
(** ** Resampling *)

Module AggregatorFacts.
Import Aggregator.

Lemma first_timestamp_le (rest : list Z) :
  forall t0, (first_timestamp t0 rest <= t0)%Z.
Proof.
  unfold first_timestamp.
  induction rest as [|t rest IH]; intros t0; simpl; [lia|].
  specialize (IH (Z.min t0 t)). lia.
Qed.

Lemma last_timestamp_ge (rest : list Z) :
  forall t0, (t0 <= last_timestamp t0 rest)%Z.
Proof.
  unfold last_timestamp.
  induction rest as [|t rest IH]; intros t0; simpl; [lia|].
  specialize (IH (Z.max t0 t)). lia.
Qed.

Lemma In_bins (first last k : Z) :
  (first <= k <= last)%Z -> In k (bins first last).
Proof.
  intros Hk. unfold bins. apply in_map_iff.
  exists (Z.to_nat (k - first)). split; [lia|].
  apply in_seq. lia.
Qed.

Lemma length_bins (first last : Z) :
  length (bins first last) = Z.to_nat (last - first + 1).
Proof. unfold bins. now rewrite length_map, length_seq. Qed.

Lemma length_dropna (rows : list (option Bar)) :
  (length (dropna rows) <= length rows)%nat.
Proof.
  induction rows as [|[b|] rows IH]; simpl; lia.
Qed.

Lemma dropna_keeps (rows : list (option Bar)) (b : Bar) :
  In (Some b) rows -> In b (dropna rows).
Proof.
  intros H. unfold dropna. apply in_flat_map.
  exists (Some b). split; [exact H | now left].
Qed.

Lemma agg_occupied (label : Z) (rows : list Bar) (b : Bar) :
  In b rows -> exists out, agg label rows = Some out /\ timestamp out = label.
Proof.
  destruct rows as [|r rest]; [intros []|]. intros _.
  eexists. split; reflexivity.
Qed.

Lemma bin_of_mono (bucket origin s t : Z) :
  (0 < bucket)%Z -> (s <= t)%Z ->
  (bin_of bucket origin s <= bin_of bucket origin t)%Z.
Proof.
  intros Hb Hst. unfold bin_of. apply Z.div_le_mono; lia.
Qed.

Lemma bin_of_within_span (bucket origin s t : Z) :
  (0 < bucket)%Z -> (t - s < bucket)%Z ->
  (bin_of bucket origin t <= bin_of bucket origin s + 1)%Z.
Proof.
  intros Hb Hst. unfold bin_of.
  rewrite <- (Z.div_add (s - origin) 1 bucket) by lia.
  apply Z.div_le_mono; lia.
Qed.

(** Every bar of the input lands in a bucket that is emitted. *)
Lemma aggregate_not_empty (bucket : Z) (df : DataFrame) :
  (0 < bucket)%Z -> df <> [] -> aggregate bucket df <> [].
Proof.
  intros Hb Hne. destruct df as [|b0 rest]; [contradiction|].
  unfold aggregate, resample_agg. cbn [map].
  set (tmin := first_timestamp (timestamp b0) (map timestamp rest)).
  set (tmax := last_timestamp (timestamp b0) (map timestamp rest)).
  set (origin := start_day tmin).
  set (k0 := bin_of bucket origin (timestamp b0)).
  assert (Hmin : (tmin <= timestamp b0)%Z) by apply first_timestamp_le.
  assert (Hmax : (timestamp b0 <= tmax)%Z) by apply last_timestamp_ge.
  destruct (agg_occupied (origin + bucket * k0)%Z
              (filter (fun b => (bin_of bucket origin (timestamp b) =? k0)%Z)
                      (b0 :: rest)) b0) as [out [Hout _]].
  { apply filter_In. split; [now left | apply Z.eqb_refl]. }
  intros Hempty.
  assert (Hin : In out (dropna
            (map (fun k => agg (origin + bucket * k)%Z
                     (filter (fun b => (bin_of bucket origin (timestamp b) =? k)%Z)
                             (b0 :: rest)))
                 (bins (bin_of bucket origin tmin) (bin_of bucket origin tmax))))).
  { apply dropna_keeps. apply in_map_iff. exists k0. split; [exact Hout|].
    apply In_bins. split; apply bin_of_mono; assumption. }
  rewrite Hempty in Hin. destruct Hin.
Qed.

Lemma aggregate_at_most_two (bucket : Z) (df : DataFrame) :
  (0 < bucket)%Z -> (span df < bucket)%Z ->
  (length (aggregate bucket df) <= 2)%nat.
Proof.
  intros Hb Hspan. unfold aggregate, resample_agg, span in *.
  destruct (map timestamp df) as [|t0 rest]; [simpl; lia|].
  etransitivity; [apply length_dropna|].
  rewrite length_map, length_bins.
  pose proof (bin_of_within_span bucket
                (start_day (first_timestamp t0 rest))
                (first_timestamp t0 rest) (last_timestamp t0 rest) Hb Hspan).
  lia.
Qed.

End AggregatorFacts.

(** C6 as stated fails: three hourly bars that span two hours, less than
    the four-hour bucket, aggregate to one bar, the partial bucket that
    starts at 08:00, not to the empty series. *)
Lemma short_series_emits_partial_bucket :
  Samples.hourly_morning <> []
  /\ (Aggregator.span Samples.hourly_morning < Aggregator.FOUR_HOURS)%Z
  /\ Aggregator.aggregate Aggregator.FOUR_HOURS Samples.hourly_morning
     = [mkBar 28800 100 104 98 99 60]
  /\ Aggregator.fetch_stock_data Samples.hourly_morning
     = Some [mkBar 28800 100 104 98 99 60].
Proof.
  split; [discriminate|].
  split; [reflexivity|].
  split; vm_compute; reflexivity.
Qed.

(* ================================================================== *)
(** * Further properties of the code *)

(* ------------------------------------------------------------------ *)
(** ** More on the detector *)

Lemma tail_is_skipn {A : Type} (n : Z) (df : list A) :
  exists m, (m <= length df)%nat /\ tail n df = skipn m df.
Proof.
  unfold tail.
  destruct (n =? 0)%Z.
  - exists (length df). split; [lia | now rewrite skipn_all].
  - destruct (0 <? n)%Z.
    + exists (length df - Z.to_nat n)%nat. split; [lia | reflexivity].
    + destruct (Nat.le_gt_cases (Z.to_nat (- n)) (length df)) as [Hle|Hgt].
      * exists (Z.to_nat (- n)). split; [exact Hle | reflexivity].
      * exists (length df). split; [lia|].
        rewrite skipn_all. apply skipn_all2. lia.
Qed.

(** Where a returned block comes from, in rows of the series itself. *)
Lemma detect_some_origin (MIN : Q) (LB : Z) (df : DataFrame) (ob : OrderBlock) :
  detect_bullish_order_block MIN LB (Some df) = Ret (Some ob) ->
  exists k origin next,
    nth_error df k = Some origin
    /\ nth_error df (S k) = Some next
    /\ (k + 4 <= length df)%nat
    /\ Qlt_bool (Close origin) (Open origin) = true
    /\ Qlt_bool (Open next) (Close next) = true
    /\ fge (strength ob) MIN = true
    /\ ob = mkOrderBlock (High origin) (Low origin) (timestamp origin)
                         (fdiv (fsub (Fin (High next)) (Low origin))
                               (Low origin)).
Proof.
  intros Hret.
  destruct (Nat.ltb_spec (length df) 5) as [Hlt|Hge].
  { unfold detect_bullish_order_block in Hret.
    apply Nat.ltb_lt in Hlt. rewrite Hlt in Hret. discriminate Hret. }
  rewrite detect_confirmed_blocks in Hret by exact Hge.
  injection Hret as Hret. apply last_item_In in Hret.
  apply confirmed_blocks_In in Hret. destruct Hret as [i [Hi Hob]].
  unfold range in Hi. apply in_seq in Hi.
  destruct (confirmed_block_fields MIN _ _ _ Hob)
    as (c & n & Hc & Hn & Hbear & Hbull & Hstr & Heq).
  unfold window in *.
  destruct (tail_is_skipn LB df) as [m [Hm Htail]].
  rewrite Htail in *. rewrite length_skipn in Hi.
  rewrite nth_error_skipn in Hc, Hn.
  exists (m + i)%nat, c, n.
  replace (S (m + i)) with (m + S i)%nat by lia.
  repeat split; try assumption. lia.
Qed.

(** The detector returns "no result" exactly when the series is shorter
    than five bars or no visited row of the window confirms. *)
Theorem detect_none_iff (MIN : Q) (LB : Z) (df : DataFrame) :
  detect_bullish_order_block MIN LB (Some df) = Ret None
  <-> ((length df < 5)%nat
       \/ forall i, (i < length (window LB df) - 3)%nat ->
                    confirmed_block MIN (window LB df) i = None).
Proof.
  destruct (Nat.ltb_spec (length df) 5) as [Hlt|Hge].
  - split; [intros _; now left|]. intros _.
    unfold detect_bullish_order_block.
    apply Nat.ltb_lt in Hlt. now rewrite Hlt.
  - rewrite detect_confirmed_blocks by exact Hge. split.
    + intros Hret. right. intros i Hi.
      injection Hret as Hret. apply last_item_None in Hret.
      destruct (confirmed_block MIN (window LB df) i) as [ob|] eqn:Hob;
        [|reflexivity].
      exfalso.
      assert (Hin : In ob (confirmed_blocks MIN (window LB df)
                             (range (length (window LB df) - 3)))).
      { unfold confirmed_blocks. apply in_flat_map. exists i. split.
        - unfold range. apply in_seq. lia.
        - rewrite Hob. now left. }
      rewrite Hret in Hin. destruct Hin.
    + intros [Hlt|Hnone]; [lia|].
      rewrite confirmed_blocks_none; [reflexivity|].
      intros k Hk. unfold range in Hk. apply in_seq in Hk.
      apply Hnone. lia.
Qed.

(** When exactly one visited row confirms, in a series of at least five
    bars, the detector returns the block of that row. *)
Theorem detect_single_confirmed
        (MIN : Q) (LB : Z) (df : DataFrame) (j : nat) (ob : OrderBlock) :
  (5 <= length df)%nat ->
  (j < length (window LB df) - 3)%nat ->
  confirmed_block MIN (window LB df) j = Some ob ->
  (forall k, (k < length (window LB df) - 3)%nat -> k <> j ->
             confirmed_block MIN (window LB df) k = None) ->
  detect_bullish_order_block MIN LB (Some df) = Ret (Some ob).
Proof.
  intros Hlen Hj Hob Hothers.
  rewrite detect_confirmed_blocks by exact Hlen.
  f_equal. apply (confirmed_blocks_last MIN _ _ j); try assumption.
  intros k Hk. apply Hothers; lia.
Qed.

Lemma detect_single_confirmed_witness :
  detect_bullish_order_block MIN_BULLISH_MOVE LOOKBACK_CANDLES
                             (Some Samples.five_bar_series)
  = Ret (Some Samples.scenario_block).
Proof.
  apply (detect_single_confirmed
           MIN_BULLISH_MOVE LOOKBACK_CANDLES Samples.five_bar_series 1).
  - vm_compute. lia.
  - vm_compute. lia.
  - vm_compute. reflexivity.
  - intros k Hk Hne.
    change (length (window LOOKBACK_CANDLES Samples.five_bar_series))
      with 5%nat in Hk.
    assert (k = 0%nat) as -> by lia.
    vm_compute. reflexivity.
Defined.

(** A returned block comes from a bearish bar of the series that is
    followed by a bullish bar and by at least two more bars: the block is
    never taken from the last three bars. *)
Theorem returned_block_lags_three_bars
        (MIN : Q) (LB : Z) (df : DataFrame) (ob : OrderBlock) :
  detect_bullish_order_block MIN LB (Some df) = Ret (Some ob) ->
  exists k origin next,
    nth_error df k = Some origin
    /\ nth_error df (S k) = Some next
    /\ (k + 4 <= length df)%nat
    /\ (Close origin < Open origin)%Q
    /\ (Open next < Close next)%Q
    /\ zone_high ob = High origin
    /\ zone_low ob = Low origin
    /\ ob_timestamp ob = timestamp origin.
Proof.
  intros Hret.
  destruct (detect_some_origin MIN LB df ob Hret)
    as (k & c & n & Hc & Hn & Hk & Hbear & Hbull & _ & ->).
  exists k, c, n. cbn [zone_high zone_low ob_timestamp].
  repeat split; try assumption; apply Qlt_bool_iff; assumption.
Qed.

Lemma returned_block_lags_three_bars_witness :
  exists k origin next,
    nth_error Samples.five_bar_series k = Some origin
    /\ nth_error Samples.five_bar_series (S k) = Some next
    /\ (k + 4 <= length Samples.five_bar_series)%nat
    /\ (Close origin < Open origin)%Q
    /\ (Open next < Close next)%Q
    /\ zone_high Samples.scenario_block = High origin
    /\ zone_low Samples.scenario_block = Low origin
    /\ ob_timestamp Samples.scenario_block = timestamp origin.
Proof.
  apply (returned_block_lags_three_bars
           MIN_BULLISH_MOVE LOOKBACK_CANDLES Samples.five_bar_series).
  vm_compute. reflexivity.
Defined.

(** Bars older than the lookback do not matter: once the series holds at
    least five bars and at least lookback_candles bars, prepending older
    history leaves the result unchanged. *)
Theorem detect_ignores_older_history
        (MIN : Q) (LB : Z) (old df : DataFrame) :
  (0 < LB)%Z -> (Z.to_nat LB <= length df)%nat -> (5 <= length df)%nat ->
  detect_bullish_order_block MIN LB (Some (old ++ df))
  = detect_bullish_order_block MIN LB (Some df).
Proof.
  intros HLB Hfull Hlen.
  assert (Hw : window LB (old ++ df) = window LB df).
  { unfold window, tail.
    destruct (Z.eqb_spec LB 0) as [E|_]; [lia|].
    destruct (Z.ltb_spec 0 LB) as [_|E]; [|lia].
    rewrite skipn_app, length_app.
    rewrite (skipn_all2 old) by lia.
    replace (length old + length df - Z.to_nat LB - length old)%nat
      with (length df - Z.to_nat LB)%nat by lia.
    reflexivity. }
  rewrite !detect_confirmed_blocks by (try rewrite length_app; lia).
  now rewrite Hw.
Qed.

Lemma detect_ignores_older_history_witness :
  detect_bullish_order_block MIN_BULLISH_MOVE 5
    (Some ([Samples.bar_before; Samples.bar_before] ++ Samples.five_bar_series))
  = detect_bullish_order_block MIN_BULLISH_MOVE 5
                               (Some Samples.five_bar_series).
Proof.
  apply (detect_ignores_older_history
           MIN_BULLISH_MOVE 5 [Samples.bar_before; Samples.bar_before]
           Samples.five_bar_series).
  - lia.
  - vm_compute. lia.
  - vm_compute. lia.
Defined.






(* ------------------------------------------------------------------ *)
(** ** More on the zone interaction classifier

    The comparisons of the classifier are exact; only the two ends of the
    tolerance band, [low - tolerance] and [high + tolerance], are rounded
    in the code.  The properties stated here are the ones that do not
    depend on that rounding: they use only that the band is not narrower
    than the bar and grows with the tolerance. *)

Lemma Qle_bool_false (x y : Q) : Qle_bool x y = false -> (y < x)%Q.
Proof.
  intros H. apply Qnot_le_lt. intros Hle.
  apply Qle_bool_iff in Hle. congruence.
Qed.

(** Turns the comparisons the classifier made into facts about the
    numbers. *)
Ltac zone_cases :=
  unfold check_zone_interaction, Qlt_bool;
  repeat match goal with
         | |- context [Qle_bool ?a ?b] =>
             let E := fresh "E" in
             destruct (Qle_bool a b) eqn:E;
             [apply Qle_bool_iff in E | apply Qle_bool_false in E]
         end;
  cbn [andb orb negb].

(** The two outside statuses are only given to a bar that is clear of the
    zone: for a well-formed bar and zone and a tolerance that is not
    negative, "Above Zone" means that the whole bar, its low included, lies
    above zone_high, and "Below Zone" that the whole bar, its high
    included, lies below zone_low.  Both follow from the order of the
    tests and from the band only widening the bar, whatever the rounding
    of the band's ends. *)
Theorem outside_status_is_clear_of_zone (tol p l h zh zl : Q) :
  (l <= p <= h)%Q -> (zl <= zh)%Q -> (0 <= zh)%Q -> (0 <= tol)%Q ->
  (check_zone_interaction tol p l h zh zl = "Above Zone"%string
   -> (zh < l)%Q)
  /\ (check_zone_interaction tol p l h zh zl = "Below Zone"%string
      -> (h < zl)%Q).
Proof.
  intros [Hlp Hph] Hz Hzh Htol.
  pose proof (Qmult_le_0_compat zh tol Hzh Htol) as He.
  unfold check_zone_interaction. cbv zeta.
  revert He. generalize (zh * tol)%Q. intros e He.
  zone_cases; split; intros H; try discriminate H; lra.
Qed.

Lemma outside_status_is_clear_of_zone_witness :
  (check_zone_interaction ZONE_TOUCH_TOLERANCE 100 99 101 105 102
   = "Above Zone"%string -> (105 < 99)%Q)
  /\ (check_zone_interaction ZONE_TOUCH_TOLERANCE 100 99 101 105 102
      = "Below Zone"%string -> (101 < 102)%Q).
Proof.
  apply (outside_status_is_clear_of_zone
           ZONE_TOUCH_TOLERANCE 100 99 101 105 102).
  - split; unfold Qle; simpl; lia.
  - unfold Qle; simpl; lia.
  - unfold Qle; simpl; lia.
  - unfold Qle; simpl; lia.
Defined.

(** Widening the tolerance keeps a touching bar touching: with a zone_high
    that is not negative, "Touching Zone" at one tolerance is "Touching
    Zone" at every larger one. *)
Theorem touching_monotone_in_tolerance (tol tol' p l h zh zl : Q) :
  (0 <= zh)%Q -> (tol <= tol')%Q ->
  check_zone_interaction tol p l h zh zl = "Touching Zone"%string ->
  check_zone_interaction tol' p l h zh zl = "Touching Zone"%string.
Proof.
  intros Hzh Htol.
  assert (He : (zh * tol <= zh * tol')%Q).
  { rewrite !(Qmult_comm zh). apply Qmult_le_compat_r; assumption. }
  unfold check_zone_interaction. cbv zeta.
  revert He. generalize (zh * tol)%Q (zh * tol')%Q. intros e e' He.
  zone_cases; intros H; try discriminate H; try reflexivity; exfalso; lra.
Qed.

Lemma touching_monotone_in_tolerance_witness :
  check_zone_interaction (1 # 100) 100 99 (1015 # 10) 105 102
  = "Touching Zone"%string.
Proof.
  apply (touching_monotone_in_tolerance (5 # 1000) (1 # 100)
           100 99 (1015 # 10) 105 102).
  - unfold Qle; simpl; lia.
  - unfold Qle; simpl; lia.
  - vm_compute. reflexivity.
Defined.

(* ------------------------------------------------------------------ *)
(** ** More on the resampling *)

Module ResampleFacts.
Import Aggregator.

Lemma fold_Qmin_le (rest : list Q) :
  forall x, (fold_left Qmin rest x <= x)%Q
            /\ forall y, In y rest -> (fold_left Qmin rest x <= y)%Q.
Proof.
  induction rest as [|z rest IH]; intros x; simpl.
  - split; [apply Qle_refl | intros y []].
  - destruct (IH (Qmin x z)) as [H1 H2]. split.
    + eapply Qle_trans; [exact H1 | apply Q.le_min_l].
    + intros y [<-|Hy].
      * eapply Qle_trans; [exact H1 | apply Q.le_min_r].
      * apply H2. exact Hy.
Qed.

Lemma fold_Qmax_ge_all (rest : list Q) :
  forall x, (x <= fold_left Qmax rest x)%Q
            /\ forall y, In y rest -> (y <= fold_left Qmax rest x)%Q.
Proof.
  induction rest as [|z rest IH]; intros x; simpl.
  - split; [apply Qle_refl | intros y []].
  - destruct (IH (Qmax x z)) as [H1 H2]. split.
    + eapply Qle_trans; [apply Q.le_max_l | exact H1].
    + intros y [<-|Hy].
      * eapply Qle_trans; [apply Q.le_max_r | exact H1].
      * apply H2. exact Hy.
Qed.

Lemma last_In_cons {A : Type} (rest : list A) :
  forall b, In (last rest b) (b :: rest).
Proof.
  assert (Hne : forall (l : list A) d, l <> [] -> In (last l d) l).
  { induction l as [|x l IH]; intros d Hl; [contradiction|].
    destruct l as [|y l']; [now left|].
    right. apply IH. discriminate. }
  intros b. destruct rest as [|x rest']; [now left|].
  right. apply Hne. discriminate.
Qed.

(** The row written for a bucket keeps the bar invariant of the rows it
    merges. *)
Lemma agg_well_formed (label : Z) (rows : list Bar) (out : Bar) :
  (forall b, In b rows -> well_formed b) ->
  agg label rows = Some out -> well_formed out.
Proof.
  intros Hrows Hagg. destruct rows as [|b rest]; [discriminate Hagg|].
  injection Hagg as <-. unfold well_formed. cbn [Open High Low Close].
  destruct (fold_Qmin_le (map Low rest) (Low b)) as [Hmin0 Hmin].
  destruct (fold_Qmax_ge_all (map High rest) (High b)) as [Hmax0 Hmax].
  destruct (Hrows b (or_introl eq_refl)) as [[Hb1 Hb2] _].
  assert (Hlast : In (last rest b) (b :: rest)) by apply last_In_cons.
  destruct (Hrows _ Hlast) as [_ [Hc1 Hc2]].
  assert (Hlo : (fold_left Qmin (map Low rest) (Low b) <= Low (last rest b))%Q).
  { destruct Hlast as [<-|Hin]; [exact Hmin0|].
    apply Hmin. apply in_map. exact Hin. }
  assert (Hhi : (High (last rest b) <= fold_left Qmax (map High rest) (High b))%Q).
  { destruct Hlast as [<-|Hin]; [exact Hmax0|].
    apply Hmax. apply in_map. exact Hin. }
  repeat split; lra.
Qed.

(** Every output row is the aggregate of the non-empty set of input rows
    of one bucket of the grid. *)
Lemma aggregate_In (bucket : Z) (df : DataFrame) (out : Bar) :
  In out (aggregate bucket df) ->
  exists t0 rest k,
    map timestamp df = t0 :: rest
    /\ agg (start_day (first_timestamp t0 rest) + bucket * k)%Z
           (filter (fun b => (bin_of bucket
                                     (start_day (first_timestamp t0 rest))
                                     (timestamp b) =? k)%Z) df)
       = Some out.
Proof.
  unfold aggregate, resample_agg. intros Hin.
  destruct (map timestamp df) as [|t0 rest] eqn:Et; [destruct Hin|].
  exists t0, rest. cbv zeta in Hin.
  unfold dropna in Hin. apply in_flat_map in Hin.
  destruct Hin as [[b|] [Hrow Hb]]; [|destruct Hb].
  destruct Hb as [->|[]].
  apply in_map_iff in Hrow. destruct Hrow as [k [Hk _]].
  exists k. split; [reflexivity | exact Hk].
Qed.

End ResampleFacts.

(** Resampling keeps the bar invariant: when every input bar has its open
    and close between its low and high, so has every output bar. *)
Theorem aggregate_keeps_bar_invariant (bucket : Z) (df : DataFrame) :
  (forall b, In b df -> well_formed b) ->
  forall out, In out (Aggregator.aggregate bucket df) -> well_formed out.
Proof.
  intros Hdf out Hout.
  destruct (ResampleFacts.aggregate_In bucket df out Hout)
    as (t0 & rest & k & _ & Hagg).
  apply (ResampleFacts.agg_well_formed _ _ _ (fun b Hb =>
           Hdf b (proj1 (proj1 (filter_In _ _ _) Hb))) Hagg).
Qed.

Lemma aggregate_keeps_bar_invariant_witness :
  well_formed (mkBar 28800 100 104 98 99 60).
Proof.
  apply (aggregate_keeps_bar_invariant
           Aggregator.FOUR_HOURS Samples.hourly_morning).
  - intros b Hb. simpl in Hb. unfold well_formed.
    repeat (destruct Hb as [<-|Hb];
            [repeat split; unfold Qle; simpl; lia|]).
    destruct Hb.
  - vm_compute. left. reflexivity.
Defined.

Module GridFacts.
Import Aggregator.

Lemma bins_nil (lo hi : Z) : (hi < lo)%Z -> bins lo hi = [].
Proof.
  intros H. unfold bins.
  replace (Z.to_nat (hi - lo + 1)) with 0%nat by lia. reflexivity.
Qed.

Lemma bins_cons (lo hi : Z) :
  (lo <= hi)%Z -> bins lo hi = lo :: bins (lo + 1) hi.
Proof.
  intros H. unfold bins.
  replace (Z.to_nat (hi - lo + 1)) with (S (Z.to_nat (hi - (lo + 1) + 1)))
    by lia.
  cbn [seq map]. f_equal; [lia|].
  rewrite <- seq_shift, map_map. apply map_ext. intros i. lia.
Qed.

Lemma bins_In_iff (lo hi k : Z) : In k (bins lo hi) <-> (lo <= k <= hi)%Z.
Proof.
  split; [|apply AggregatorFacts.In_bins].
  unfold bins. intros H. apply in_map_iff in H.
  destruct H as [i [<- Hi]]. apply in_seq in Hi. lia.
Qed.

Lemma agg_timestamp (label : Z) (rows : list Bar) (out : Bar) :
  agg label rows = Some out -> timestamp out = label.
Proof.
  destruct rows as [|b rest]; [discriminate|].
  intros H. injection H as <-. reflexivity.
Qed.

Section Grid.

Variables (origin bucket : Z) (rows_of : Z -> list Bar).
Hypothesis bucket_pos : (0 < bucket)%Z.

(** The output rows of a run of buckets, in order. *)
Let grid (lo hi : Z) : DataFrame :=
  dropna (map (fun k => agg (origin + bucket * k)%Z (rows_of k)) (bins lo hi)).

Lemma grid_timestamps :
  forall (n : nat) (lo hi : Z),
    Z.to_nat (hi - lo + 1) = n ->
    StronglySorted Z.lt (map timestamp (grid lo hi))
    /\ Forall (fun t => exists k, (lo <= k <= hi)%Z
                                 /\ t = (origin + bucket * k)%Z)
              (map timestamp (grid lo hi)).
Proof.
  induction n as [|n IH]; intros lo hi Hn.
  - unfold grid. rewrite bins_nil by lia. split; constructor.
  - unfold grid. rewrite bins_cons by lia. cbn [map dropna flat_map].
    destruct (IH (lo + 1)%Z hi ltac:(lia)) as [Hsorted Hall].
    fold (dropna (map (fun k => agg (origin + bucket * k)%Z (rows_of k))
                      (bins (lo + 1) hi))).
    fold (grid (lo + 1) hi).
    assert (Hall' : Forall (fun t => exists k, (lo <= k <= hi)%Z
                                        /\ t = (origin + bucket * k)%Z)
                           (map timestamp (grid (lo + 1) hi))).
    { eapply Forall_impl; [|exact Hall].
      intros t [k [Hk Ht]]. exists k. split; [lia | exact Ht]. }
    destruct (agg (origin + bucket * lo)%Z (rows_of lo)) as [b|] eqn:Eb.
    + apply agg_timestamp in Eb. cbn [app map]. split.
      * constructor; [exact Hsorted|].
        eapply Forall_impl; [|exact Hall].
        intros t [k [Hk Ht]]. rewrite Eb, Ht. nia.
      * constructor; [|exact Hall'].
        exists lo. split; [lia | exact Eb].
    + cbn [app]. split; assumption.
Qed.

End Grid.

Lemma aggregate_on_grid (bucket : Z) (df : DataFrame) :
  (0 < bucket)%Z ->
  StronglySorted Z.lt (map timestamp (aggregate bucket df))
  /\ forall t0 rest,
      map timestamp df = t0 :: rest ->
      Forall (fun t => exists k,
                  t = (start_day (first_timestamp t0 rest) + bucket * k)%Z)
             (map timestamp (aggregate bucket df)).
Proof.
  intros Hb. unfold aggregate, resample_agg.
  destruct (map timestamp df) as [|t0 rest] eqn:Et.
  - split; [constructor | intros ? ? H; discriminate H].
  - cbv zeta.
    set (origin := start_day (first_timestamp t0 rest)).
    destruct (grid_timestamps origin bucket
                (fun k => filter (fun b => (bin_of bucket origin (timestamp b)
                                            =? k)%Z) df)
                Hb _ (bin_of bucket origin (first_timestamp t0 rest))
                (bin_of bucket origin (last_timestamp t0 rest)) eq_refl)
      as [Hsorted Hall].
    split; [exact Hsorted|].
    intros t0' rest' E. injection E as <- <-.
    eapply Forall_impl; [|exact Hall].
    intros t [k [_ Ht]]. exists k. exact Ht.
Qed.

End GridFacts.

(** The resampled series is in strictly ascending time order, with no
    label twice. *)
Theorem aggregate_timestamps_ascending (bucket : Z) (df : DataFrame) :
  (0 < bucket)%Z ->
  StronglySorted Z.lt (map timestamp (Aggregator.aggregate bucket df)).
Proof.
  intros Hb. exact (proj1 (GridFacts.aggregate_on_grid bucket df Hb)).
Qed.

Lemma aggregate_timestamps_ascending_witness :
  StronglySorted Z.lt
    (map timestamp (Aggregator.aggregate Aggregator.FOUR_HOURS
                                         Samples.two_block_series)).
Proof.
  apply (aggregate_timestamps_ascending
           Aggregator.FOUR_HOURS Samples.two_block_series).
  reflexivity.
Defined.

(** What [fetch_stock_data] hands on is never an empty frame, and every
    label of it is a whole number of four-hour steps after midnight:
    00:00, 04:00, 08:00, ... on the clock of the timestamps. *)
Theorem fetch_stock_data_four_hour_grid (history df : DataFrame) :
  Aggregator.fetch_stock_data history = Some df ->
  df <> []
  /\ Forall (fun b => (timestamp b mod Aggregator.FOUR_HOURS = 0)%Z) df.
Proof.
  unfold Aggregator.fetch_stock_data. intros H.
  destruct history as [|b0 rest]; [discriminate H|].
  injection H as <-. split.
  - apply AggregatorFacts.aggregate_not_empty; [reflexivity | discriminate].
  - destruct (GridFacts.aggregate_on_grid Aggregator.FOUR_HOURS (b0 :: rest)
                ltac:(reflexivity)) as [_ Hgrid].
    specialize (Hgrid _ _ eq_refl).
    rewrite Forall_forall in Hgrid. apply Forall_forall. intros b Hb.
    destruct (Hgrid (timestamp b) (in_map timestamp _ _ Hb)) as [k Hk].
    rewrite Hk.
    unfold Aggregator.start_day, Aggregator.DAY, Aggregator.FOUR_HOURS.
    match goal with
    | |- ((86400 * ?q + 14400 * k) mod 14400 = 0)%Z =>
        replace (86400 * q + 14400 * k)%Z with ((6 * q + k) * 14400)%Z by lia
    end.
    apply Z.mod_mul. lia.
Qed.

Lemma fetch_stock_data_four_hour_grid_witness :
  [mkBar 28800 100 104 98 99 60] <> []
  /\ Forall (fun b => (timestamp b mod Aggregator.FOUR_HOURS = 0)%Z)
            [mkBar 28800 100 104 98 99 60].
Proof.
  apply (fetch_stock_data_four_hour_grid Samples.hourly_morning).
  vm_compute. reflexivity.
Defined.

Module PartitionFacts.
Import Aggregator.

Lemma NoDup_bins :
  forall (n : nat) (lo hi : Z), Z.to_nat (hi - lo + 1) = n -> NoDup (bins lo hi).
Proof.
  induction n as [|n IH]; intros lo hi Hn.
  - rewrite GridFacts.bins_nil by lia. constructor.
  - rewrite GridFacts.bins_cons by lia. constructor.
    + intros Hin. apply GridFacts.bins_In_iff in Hin. lia.
    + apply IH. lia.
Qed.

Lemma fold_left_Qplus (l : list Q) :
  forall a, (fold_left Qplus l a == a + fold_right Qplus 0 l)%Q.
Proof.
  induction l as [|x l IH]; intros a; simpl; [lra|].
  rewrite IH. lra.
Qed.

Lemma agg_volume (label : Z) (rows : list Bar) (out : Bar) :
  agg label rows = Some out -> (Volume out == total_volume rows)%Q.
Proof.
  destruct rows as [|b rest]; [discriminate|].
  intros H. injection H as <-. cbn [Volume].
  unfold total_volume. cbn [map fold_right].
  apply fold_left_Qplus.
Qed.

Section Partition.

(** The bucket a bar falls in. *)
Variable key : Bar -> Z.

Let rows_of (df : DataFrame) (k : Z) : list Bar :=
  filter (fun b => (key b =? k)%Z) df.

(** Volume, and number of rows, summed over the buckets [ks]. *)
Let volume_over (df : DataFrame) (ks : list Z) : Q :=
  fold_right (fun k acc => (total_volume (rows_of df k) + acc)%Q) 0%Q ks.

Let rows_over (df : DataFrame) (ks : list Z) : nat :=
  fold_right (fun k acc => (length (rows_of df k) + acc)%nat) 0%nat ks.

Lemma volume_over_miss (b : Bar) (r : DataFrame) (ks : list Z) :
  ~ In (key b) ks ->
  (volume_over (b :: r) ks == volume_over r ks)%Q.
Proof.
  induction ks as [|k ks IH]; intros Hout; [reflexivity|].
  cbn [volume_over fold_right]. fold (volume_over (b :: r) ks).
  fold (volume_over r ks).
  rewrite IH by (intros H; apply Hout; now right).
  unfold rows_of. cbn [filter].
  destruct (Z.eqb_spec (key b) k) as [E|_]; [|reflexivity].
  exfalso. apply Hout. now left.
Qed.

Lemma volume_over_hit (b : Bar) (r : DataFrame) (ks : list Z) :
  NoDup ks -> In (key b) ks ->
  (volume_over (b :: r) ks == Volume b + volume_over r ks)%Q.
Proof.
  induction ks as [|k ks IH]; intros Hnd Hin; [destruct Hin|].
  cbn [volume_over fold_right]. fold (volume_over (b :: r) ks).
  fold (volume_over r ks).
  inversion Hnd as [|? ? Hk Hnd']; subst.
  unfold rows_of. cbn [filter].
  destruct (Z.eqb_spec (key b) k) as [E|E].
  - rewrite volume_over_miss by (rewrite E; exact Hk).
    unfold total_volume. cbn [map fold_right]. lra.
  - destruct Hin as [Hin|Hin]; [congruence|].
    rewrite IH by assumption. lra.
Qed.

Lemma volume_over_all (df : DataFrame) (ks : list Z) :
  NoDup ks -> (forall b, In b df -> In (key b) ks) ->
  (volume_over df ks == total_volume df)%Q.
Proof.
  intros Hnd. induction df as [|b r IH]; intros Hcover.
  - clear Hcover. induction ks as [|k ks IHk]; [reflexivity|].
    inversion Hnd; subst.
    cbn [volume_over fold_right]. fold (volume_over [] ks).
    rewrite IHk by assumption. unfold rows_of, total_volume. simpl. lra.
  - rewrite volume_over_hit by (try assumption; apply Hcover; now left).
    rewrite IH by (intros x Hx; apply Hcover; now right).
    unfold total_volume. cbn [map fold_right]. reflexivity.
Qed.

Lemma rows_over_le (df : DataFrame) (ks : list Z) :
  NoDup ks -> (rows_over df ks <= length df)%nat.
Proof.
  intros Hnd. induction df as [|b r IH].
  - induction ks as [|k ks IHk]; [simpl; lia|].
    inversion Hnd; subst. cbn [rows_over fold_right].
    fold (rows_over [] ks). specialize (IHk ltac:(assumption)).
    unfold rows_of. simpl. simpl in IHk. lia.
  - assert (Hstep : forall ks', NoDup ks' ->
              (rows_over (b :: r) ks' <= S (rows_over r ks')
               /\ (~ In (key b) ks' ->
                   rows_over (b :: r) ks' = rows_over r ks'))%nat).
    { induction ks' as [|k ks' IHk]; intros Hnd'; [simpl; split; lia|].
      inversion Hnd' as [|? ? Hk Hnd'']; subst.
      destruct (IHk Hnd'') as [Hle Hmiss].
      cbn [rows_over fold_right]. fold (rows_over (b :: r) ks').
      fold (rows_over r ks'). unfold rows_of. cbn [filter].
      destruct (Z.eqb_spec (key b) k) as [E|E].
      - rewrite Hmiss by (rewrite E; exact Hk). cbn [length]. split; [lia|].
        intros Hout. exfalso. apply Hout. now left.
      - split; [lia|]. intros Hout. rewrite Hmiss; [reflexivity|].
        intros H. apply Hout. now right. }
    destruct (Hstep ks Hnd) as [Hle _]. cbn [length]. lia.
Qed.

(** What the emitted rows of the buckets [ks] add up to. *)
Lemma dropna_volume (df : DataFrame) (label : Z -> Z) (ks : list Z) :
  (total_volume (dropna (map (fun k => agg (label k) (rows_of df k)) ks))
   == volume_over df ks)%Q.
Proof.
  induction ks as [|k ks IH]; [reflexivity|].
  cbn [map dropna flat_map volume_over fold_right].
  fold (dropna (map (fun k => agg (label k) (rows_of df k)) ks)).
  fold (volume_over df ks).
  destruct (agg (label k) (rows_of df k)) as [out|] eqn:E.
  - apply agg_volume in E. cbn [app].
    unfold total_volume at 1. cbn [map fold_right].
    fold (total_volume (dropna (map (fun k => agg (label k) (rows_of df k)) ks))).
    rewrite IH, E. reflexivity.
  - cbn [app]. rewrite IH.
    destruct (rows_of df k); [|discriminate E].
    unfold total_volume. simpl. lra.
Qed.

Lemma dropna_rows (df : DataFrame) (label : Z -> Z) (ks : list Z) :
  (length (dropna (map (fun k => agg (label k) (rows_of df k)) ks))
   <= rows_over df ks)%nat.
Proof.
  induction ks as [|k ks IH]; [simpl; lia|].
  cbn [map dropna flat_map rows_over fold_right].
  fold (dropna (map (fun k => agg (label k) (rows_of df k)) ks)).
  fold (rows_over df ks).
  rewrite length_app.
  destruct (rows_of df k) as [|b rest]; simpl; lia.
Qed.

End Partition.

End PartitionFacts.

Lemma timestamps_within_extremes (rest : list Z) :
  forall t0 t,
    In t (t0 :: rest) ->
    (Aggregator.first_timestamp t0 rest <= t
     <= Aggregator.last_timestamp t0 rest)%Z.
Proof.
  unfold Aggregator.first_timestamp, Aggregator.last_timestamp.
  induction rest as [|x rest IH]; intros t0 t Hin.
  - destruct Hin as [<-|[]]. simpl. lia.
  - cbn [fold_left].
    pose proof (AggregatorFacts.first_timestamp_le rest (Z.min t0 x)) as Hmin.
    pose proof (AggregatorFacts.last_timestamp_ge rest (Z.max t0 x)) as Hmax.
    unfold Aggregator.first_timestamp, Aggregator.last_timestamp in Hmin, Hmax.
    destruct Hin as [<-|[<-|Hin]]; [lia | lia |].
    destruct (IH (Z.min t0 x) t (or_intror Hin)) as [H1 _].
    destruct (IH (Z.max t0 x) t (or_intror Hin)) as [_ H2].
    lia.
Qed.

Module CoverageFacts.
Import Aggregator.

(** The bucket numbered [bin_of t] starts at or before [t] and ends after
    it. *)
Lemma bin_interval (bucket origin t : Z) :
  (0 < bucket)%Z ->
  (origin + bucket * bin_of bucket origin t <= t
   < origin + bucket * bin_of bucket origin t + bucket)%Z.
Proof.
  intros Hb. unfold bin_of.
  pose proof (Z.div_mod (t - origin) bucket ltac:(lia)) as Hdm.
  pose proof (Z.mod_pos_bound (t - origin) bucket Hb) as Hmod.
  lia.
Qed.

Lemma agg_bounds (label : Z) (rows : list Bar) (out b : Bar) :
  agg label rows = Some out -> In b rows ->
  (Low out <= Low b)%Q /\ (High b <= High out)%Q.
Proof.
  destruct rows as [|r rest]; [discriminate|].
  intros H Hin. injection H as <-. cbn [Low High].
  destruct (ResampleFacts.fold_Qmin_le (map Low rest) (Low r)) as [Hmin0 Hmin].
  destruct (ResampleFacts.fold_Qmax_ge_all (map High rest) (High r))
    as [Hmax0 Hmax].
  destruct Hin as [<-|Hin]; [split; assumption|].
  split; [apply Hmin | apply Hmax]; apply in_map; exact Hin.
Qed.

(** Every input bar is covered by an output bar: the row of its bucket. *)
Lemma aggregate_covers (bucket : Z) (df : DataFrame) (b : Bar) :
  (0 < bucket)%Z -> In b df ->
  exists out,
    In out (aggregate bucket df)
    /\ (timestamp out <= timestamp b < timestamp out + bucket)%Z
    /\ (Low out <= Low b)%Q /\ (High b <= High out)%Q.
Proof.
  intros Hb Hin. unfold aggregate, resample_agg.
  destruct (map timestamp df) as [|t0 rest] eqn:Et.
  { apply map_eq_nil in Et. subst df. destruct Hin. }
  cbv zeta.
  set (origin := start_day (first_timestamp t0 rest)).
  set (k := bin_of bucket origin (timestamp b)).
  assert (Hrow : In b (filter (fun x => (bin_of bucket origin (timestamp x)
                                         =? k)%Z) df)).
  { apply filter_In. split; [exact Hin | apply Z.eqb_refl]. }
  destruct (AggregatorFacts.agg_occupied (origin + bucket * k)%Z _ b Hrow)
    as [out [Hout Hts]].
  exists out. split; [|split].
  - apply AggregatorFacts.dropna_keeps. apply in_map_iff.
    exists k. split; [exact Hout|].
    apply GridFacts.bins_In_iff.
    assert (Hb' : In (timestamp b) (t0 :: rest)).
    { rewrite <- Et. apply in_map. exact Hin. }
    destruct (timestamps_within_extremes rest t0 _ Hb') as [H1 H2].
    split; apply AggregatorFacts.bin_of_mono; assumption.
  - rewrite Hts. apply bin_interval. exact Hb.
  - exact (agg_bounds _ _ _ _ Hout Hrow).
Qed.

(** Every output bar is the row of a bucket that holds an input bar. *)
Lemma aggregate_occupied (bucket : Z) (df : DataFrame) (out : Bar) :
  (0 < bucket)%Z -> In out (aggregate bucket df) ->
  exists b,
    In b df /\ (timestamp out <= timestamp b < timestamp out + bucket)%Z.
Proof.
  intros Hb Hout.
  destruct (ResampleFacts.aggregate_In bucket df out Hout)
    as (t0 & rest & k & _ & Hagg).
  pose proof (GridFacts.agg_timestamp _ _ _ Hagg) as Hts.
  destruct (filter _ df) as [|b rows] eqn:Ef; [discriminate Hagg|].
  assert (Hin : In b (filter (fun x =>
            (bin_of bucket (start_day (first_timestamp t0 rest)) (timestamp x)
             =? k)%Z) df)) by (rewrite Ef; now left).
  apply filter_In in Hin. destruct Hin as [Hdf Hk].
  apply Z.eqb_eq in Hk.
  exists b. split; [exact Hdf|].
  rewrite Hts, <- Hk. apply bin_interval. exact Hb.
Qed.

End CoverageFacts.

(** C6, as the code has it: resampling emits every bucket that holds a
    bar, partial or not, and no other.  For a non-empty series and a
    positive bucket width the output is not empty; every input bar lies in
    the time span of an output bar, whose low and high enclose the bar's;
    every output bar spans at least one input bar; and a series whose time
    span is shorter than a bucket gives one or two bars.  Nothing is
    raised. *)
Theorem aggregate_short_series (bucket : Z) (df : DataFrame) :
  (0 < bucket)%Z -> df <> [] ->
  Aggregator.aggregate bucket df <> []
  /\ (forall b, In b df ->
       exists out,
         In out (Aggregator.aggregate bucket df)
         /\ (timestamp out <= timestamp b < timestamp out + bucket)%Z
         /\ (Low out <= Low b)%Q /\ (High b <= High out)%Q)
  /\ (forall out, In out (Aggregator.aggregate bucket df) ->
       exists b,
         In b df
         /\ (timestamp out <= timestamp b < timestamp out + bucket)%Z)
  /\ ((Aggregator.span df < bucket)%Z ->
      (1 <= length (Aggregator.aggregate bucket df) <= 2)%nat).
Proof.
  intros Hb Hne.
  pose proof (AggregatorFacts.aggregate_not_empty bucket df Hb Hne) as Hout.
  split; [exact Hout|]. split; [|split].
  - intros b Hin. apply CoverageFacts.aggregate_covers; assumption.
  - intros out Hin. apply CoverageFacts.aggregate_occupied; assumption.
  - intros Hspan. split.
    + destruct (Aggregator.aggregate bucket df); [contradiction | simpl; lia].
    + apply AggregatorFacts.aggregate_at_most_two; assumption.
Qed.

Lemma aggregate_short_series_witness :
  Aggregator.aggregate Aggregator.FOUR_HOURS Samples.hourly_morning <> []
  /\ (forall b, In b Samples.hourly_morning ->
       exists out,
         In out (Aggregator.aggregate Aggregator.FOUR_HOURS
                                      Samples.hourly_morning)
         /\ (timestamp out <= timestamp b
             < timestamp out + Aggregator.FOUR_HOURS)%Z
         /\ (Low out <= Low b)%Q /\ (High b <= High out)%Q)
  /\ (forall out, In out (Aggregator.aggregate Aggregator.FOUR_HOURS
                                               Samples.hourly_morning) ->
       exists b,
         In b Samples.hourly_morning
         /\ (timestamp out <= timestamp b
             < timestamp out + Aggregator.FOUR_HOURS)%Z)
  /\ ((Aggregator.span Samples.hourly_morning < Aggregator.FOUR_HOURS)%Z ->
      (1 <= length (Aggregator.aggregate Aggregator.FOUR_HOURS
                                         Samples.hourly_morning) <= 2)%nat).
Proof.
  apply (aggregate_short_series Aggregator.FOUR_HOURS Samples.hourly_morning).
  - reflexivity.
  - discriminate.
Defined.

(** Resampling conserves traded volume: when the volumes are whole
    numbers of shares, none negative, and their total stays below the
    limit 2^63 of the integer column, so that no sum wraps around, the
    volumes of the output bars add up to the volumes of the input bars. *)
Theorem aggregate_conserves_volume (bucket : Z) (df : DataFrame) :
  (0 < bucket)%Z ->
  (forall b, In b df -> exists n : Z, (0 <= n)%Z /\ Volume b = inject_Z n) ->
  (total_volume df < inject_Z (2 ^ 63))%Q ->
  (total_volume (Aggregator.aggregate bucket df) == total_volume df)%Q.
Proof.
  intros Hb _ _. unfold Aggregator.aggregate, Aggregator.resample_agg.
  destruct (map timestamp df) as [|t0 rest] eqn:Et.
  - apply map_eq_nil in Et. subst df. reflexivity.
  - cbv zeta.
    set (origin := Aggregator.start_day (Aggregator.first_timestamp t0 rest)).
    set (key := fun b : Bar => Aggregator.bin_of bucket origin (timestamp b)).
    set (lo := Aggregator.bin_of bucket origin
                                 (Aggregator.first_timestamp t0 rest)).
    set (hi := Aggregator.bin_of bucket origin
                                 (Aggregator.last_timestamp t0 rest)).
    etransitivity;
      [exact (PartitionFacts.dropna_volume
                key df (fun k => (origin + bucket * k)%Z)
                (Aggregator.bins lo hi))|].
    apply PartitionFacts.volume_over_all.
    + exact (PartitionFacts.NoDup_bins _ lo hi eq_refl).
    + intros b Hb'. apply GridFacts.bins_In_iff.
      assert (Hin : In (timestamp b) (t0 :: rest)).
      { rewrite <- Et. apply in_map. exact Hb'. }
      destruct (timestamps_within_extremes rest t0 _ Hin) as [H1 H2].
      unfold key, lo, hi.
      split; apply AggregatorFacts.bin_of_mono; assumption.
Qed.

Lemma aggregate_conserves_volume_witness :
  (total_volume (Aggregator.aggregate Aggregator.FOUR_HOURS
                                      Samples.hourly_morning)
   == total_volume Samples.hourly_morning)%Q.
Proof.
  apply (aggregate_conserves_volume
           Aggregator.FOUR_HOURS Samples.hourly_morning).
  - reflexivity.
  - intros b Hb. simpl in Hb.
    destruct Hb as [<-|[<-|[<-|[]]]];
      [exists 10%Z | exists 20%Z | exists 30%Z]; split; (lia || reflexivity).
  - reflexivity.
Defined.

(** Resampling never produces more bars than it is given, whatever the
    bucket width. *)
Theorem aggregate_length_le (bucket : Z) (df : DataFrame) :
  (length (Aggregator.aggregate bucket df) <= length df)%nat.
Proof.
  unfold Aggregator.aggregate, Aggregator.resample_agg.
  destruct (map timestamp df) as [|t0 rest]; [simpl; lia|].
  cbv zeta.
  set (origin := Aggregator.start_day (Aggregator.first_timestamp t0 rest)).
  set (key := fun b : Bar => Aggregator.bin_of bucket origin (timestamp b)).
  set (lo := Aggregator.bin_of bucket origin
                               (Aggregator.first_timestamp t0 rest)).
  set (hi := Aggregator.bin_of bucket origin
                               (Aggregator.last_timestamp t0 rest)).
  etransitivity;
    [exact (PartitionFacts.dropna_rows
              key df (fun k => (origin + bucket * k)%Z)
              (Aggregator.bins lo hi))|].
  apply PartitionFacts.rows_over_le.
  exact (PartitionFacts.NoDup_bins _ lo hi eq_refl).
Qed.

Module IdempotenceFacts.
Import Aggregator.

Lemma first_timestamp_sorted (ts : list Z) (t0 : Z) :
  Forall (Z.lt t0) ts -> first_timestamp t0 ts = t0.
Proof.
  unfold first_timestamp. induction ts as [|x ts IH]; intros H; [reflexivity|].
  inversion H; subst. cbn [fold_left].
  replace (Z.min t0 x) with t0 by lia. apply IH. assumption.
Qed.

Lemma first_timestamp_In (rest : list Z) :
  forall t0, In (first_timestamp t0 rest) (t0 :: rest).
Proof.
  unfold first_timestamp.
  induction rest as [|x rest IH]; intros t0; [now left|].
  cbn [fold_left]. destruct (IH (Z.min t0 x)) as [H|H].
  - rewrite <- H. destruct (Z.min_spec t0 x) as [[_ E]|[_ E]]; rewrite E.
    + now left.
    + right. now left.
  - right. right. exact H.
Qed.

Lemma agg_single (b : Bar) : agg (timestamp b) [b] = Some b.
Proof. destruct b. reflexivity. Qed.

Section OnGrid.

Variables (origin bucket : Z).
Hypothesis bucket_pos : (0 < bucket)%Z.

Let key (b : Bar) : Z := bin_of bucket origin (timestamp b).
Let on_grid (b : Bar) : Prop := timestamp b = (origin + bucket * key b)%Z.

Let emit (s : DataFrame) (lo hi : Z) : DataFrame :=
  dropna (map (fun k => agg (origin + bucket * k)%Z
                            (filter (fun b => (key b =? k)%Z) s))
              (bins lo hi)).

Lemma filter_key_none (s : DataFrame) (k : Z) :
  (forall b, In b s -> key b <> k) ->
  filter (fun b => (key b =? k)%Z) s = [].
Proof.
  induction s as [|b s IH]; intros H; [reflexivity|].
  cbn [filter]. destruct (Z.eqb_spec (key b) k) as [E|_].
  - exfalso. exact (H b (or_introl eq_refl) E).
  - apply IH. intros x Hx. apply H. now right.
Qed.

(** Buckets that hold one row each give the rows back. *)
Lemma emit_on_grid :
  forall (n : nat) (lo hi : Z) (s : DataFrame),
    Z.to_nat (hi - lo + 1) = n ->
    StronglySorted Z.lt (map timestamp s) ->
    (forall b, In b s -> on_grid b /\ (lo <= key b <= hi)%Z) ->
    emit s lo hi = s.
Proof.
  induction n as [|n IH]; intros lo hi s Hn Hsorted Hs.
  - destruct s as [|b s]; [|destruct (Hs b (or_introl eq_refl)); lia].
    unfold emit. rewrite GridFacts.bins_nil by lia. reflexivity.
  - unfold emit. rewrite GridFacts.bins_cons by lia.
    cbn [map dropna flat_map].
    fold (dropna (map (fun k => agg (origin + bucket * k)%Z
                                    (filter (fun b => (key b =? k)%Z) s))
                      (bins (lo + 1) hi))).
    fold (emit s (lo + 1) hi).
    destruct s as [|b r].
    + cbn [filter agg app]. apply IH; [lia | constructor | intros ? []].
    + cbn [map] in Hsorted. apply StronglySorted_inv in Hsorted.
      destruct Hsorted as [Hr Hlt].
      destruct (Hs b (or_introl eq_refl)) as [Hgrid Hkey].
      assert (Hlater : forall x, In x r -> (key b < key x)%Z).
      { intros x Hx. destruct (Hs x (or_intror Hx)) as [Hgx _].
        rewrite Forall_forall in Hlt.
        pose proof (Hlt _ (in_map timestamp _ _ Hx)) as Hbx.
        unfold on_grid in Hgrid, Hgx. nia. }
      destruct (Z.eq_dec (key b) lo) as [E|E].
      * cbn [filter]. rewrite E, Z.eqb_refl.
        rewrite filter_key_none
          by (intros x Hx; pose proof (Hlater x Hx); lia).
        replace (origin + bucket * lo)%Z with (timestamp b)
          by (unfold on_grid in Hgrid; rewrite Hgrid, E; reflexivity).
        rewrite agg_single. cbn [app]. f_equal.
        transitivity (emit r (lo + 1) hi).
        -- unfold emit. f_equal. apply map_ext_in. intros k Hk.
           apply GridFacts.bins_In_iff in Hk. cbn [filter].
           destruct (Z.eqb_spec (key b) k) as [E'|_]; [lia | reflexivity].
        -- apply IH; [lia | exact Hr |].
           intros x Hx. destruct (Hs x (or_intror Hx)) as [Hgx Hkx].
           split; [exact Hgx|]. pose proof (Hlater x Hx). lia.
      * rewrite filter_key_none.
        -- cbn [agg app]. apply IH; [lia | |].
           ++ cbn [map]. constructor; assumption.
           ++ intros x Hx. destruct (Hs x Hx) as [Hgx Hkx].
              split; [exact Hgx|].
              destruct Hx as [<-|Hx]; [lia|].
              pose proof (Hlater x Hx). lia.
        -- intros x [<-|Hx]; [lia|]. pose proof (Hlater x Hx). lia.
Qed.

End OnGrid.

Lemma bucketed_on_grid (bucket t0 t : Z) :
  (0 < bucket)%Z ->
  ((t - start_day t0) mod bucket = 0)%Z ->
  t = (start_day t0 + bucket * bin_of bucket (start_day t0) t)%Z.
Proof.
  intros Hb Hmod. unfold bin_of.
  pose proof (Z.div_mod (t - start_day t0) bucket ltac:(lia)) as Hdm.
  lia.
Qed.

(** A series that is already on the grid of [bucket] is resampled to
    itself. *)
Lemma aggregate_bucketed_id (bucket : Z) (s : DataFrame) :
  (0 < bucket)%Z -> bucketed bucket s -> aggregate bucket s = s.
Proof.
  intros Hb [Hsorted Hgrid]. unfold aggregate, resample_agg.
  destruct s as [|b0 r]; [reflexivity|].
  cbn [map] in *.
  pose proof (StronglySorted_inv Hsorted) as [_ Hlt].
  rewrite (first_timestamp_sorted _ _ Hlt). cbv zeta.
  apply (emit_on_grid (start_day (timestamp b0)) bucket Hb _ _ _ _ eq_refl).
  - exact Hsorted.
  - intros b Hin.
    assert (Hts : In (timestamp b) (timestamp b0 :: map timestamp r)).
    { change (In (timestamp b) (map timestamp (b0 :: r))).
      apply in_map. exact Hin. }
    rewrite Forall_forall in Hgrid. split.
    + apply bucketed_on_grid; [exact Hb | apply Hgrid; exact Hts].
    + destruct (timestamps_within_extremes _ _ _ Hts) as [H1 H2].
      rewrite (first_timestamp_sorted _ _ Hlt) in H1.
      split; apply AggregatorFacts.bin_of_mono; assumption.
Qed.

Lemma start_day_of_first_label (bucket tmin : Z) :
  (0 < bucket)%Z ->
  start_day (start_day tmin + bucket * bin_of bucket (start_day tmin) tmin)
  = start_day tmin.
Proof.
  intros Hb. unfold start_day at 1. f_equal.
  unfold bin_of, start_day, DAY.
  pose proof (Z.div_mod tmin 86400 ltac:(lia)) as Hdm.
  pose proof (Z.mod_pos_bound tmin 86400 ltac:(lia)) as Hmod.
  set (q := (tmin / 86400)%Z) in *.
  pose proof (Z.mul_div_le (tmin - 86400 * q) bucket Hb) as Hle.
  assert (Hge : (0 <= (tmin - 86400 * q) / bucket)%Z)
    by (apply Z.div_pos; lia).
  set (k := ((tmin - 86400 * q) / bucket)%Z) in *.
  rewrite (Z.mul_comm 86400 q), Z.div_add_l by lia.
  rewrite Z.div_small by nia. lia.
Qed.

(** The resampled series is on the grid of its own first label. *)
Lemma aggregate_is_bucketed (bucket : Z) (df : DataFrame) :
  (0 < bucket)%Z -> bucketed bucket (aggregate bucket df).
Proof.
  intros Hb.
  destruct (GridFacts.aggregate_on_grid bucket df Hb) as [Hsorted Hgrid].
  split; [exact Hsorted|].
  destruct (map timestamp df) as [|t0 rest] eqn:Et.
  { apply map_eq_nil in Et. subst df. exact I. }
  specialize (Hgrid _ _ eq_refl).
  set (tmin := first_timestamp t0 rest) in *.
  assert (Hfirst : exists out outs,
             aggregate bucket df = out :: outs
             /\ timestamp out
                = (start_day tmin + bucket * bin_of bucket (start_day tmin) tmin)%Z).
  { unfold aggregate, resample_agg. rewrite Et. cbv zeta. fold tmin.
    assert (Hin : In tmin (t0 :: rest)) by apply first_timestamp_In.
    rewrite <- Et in Hin. apply in_map_iff in Hin.
    destruct Hin as [b [Hbt Hbin]].
    destruct (timestamps_within_extremes rest t0 tmin
                (first_timestamp_In rest t0)) as [_ Hmax].
    rewrite GridFacts.bins_cons
      by (apply AggregatorFacts.bin_of_mono; assumption).
    cbn [map dropna flat_map].
    destruct (AggregatorFacts.agg_occupied
                (start_day tmin + bucket * bin_of bucket (start_day tmin) tmin)%Z
                (filter (fun b' => (bin_of bucket (start_day tmin) (timestamp b')
                                    =? bin_of bucket (start_day tmin) tmin)%Z) df)
                b) as [out [Hout Hts]].
    { apply filter_In. split; [exact Hbin|]. rewrite Hbt. apply Z.eqb_refl. }
    rewrite Hout. cbn [app]. eexists. eexists. split; [reflexivity | exact Hts]. }
  destruct Hfirst as (out & outs & Eout & Hts).
  rewrite Eout in *. cbn [map] in *.
  rewrite Hts, start_day_of_first_label by exact Hb.
  rewrite <- Hts.
  eapply Forall_impl; [|exact Hgrid].
  intros t [k Hk]. rewrite Hk.
  replace (start_day tmin + bucket * k - start_day tmin)%Z
    with (k * bucket)%Z by lia.
  apply Z.mod_mul. lia.
Qed.

End IdempotenceFacts.

(** A series that is already resampled, strictly ascending and with every
    label a whole number of buckets after midnight of its first day, is
    returned unchanged. *)
Theorem aggregate_of_bucketed_series (bucket : Z) (df : DataFrame) :
  (0 < bucket)%Z -> bucketed bucket df ->
  Aggregator.aggregate bucket df = df.
Proof.
  intros Hb Hdf. apply IdempotenceFacts.aggregate_bucketed_id; assumption.
Qed.

Lemma aggregate_of_bucketed_series_witness :
  Aggregator.aggregate Aggregator.FOUR_HOURS Samples.two_block_series
  = Samples.two_block_series.
Proof.
  apply (aggregate_of_bucketed_series
           Aggregator.FOUR_HOURS Samples.two_block_series).
  - reflexivity.
  - split.
    + simpl. repeat constructor.
    + simpl. repeat constructor.
Defined.

(** Resampling twice with the same bucket width is the same as resampling
    once. *)
Theorem aggregate_idempotent (bucket : Z) (df : DataFrame) :
  (0 < bucket)%Z ->
  Aggregator.aggregate bucket (Aggregator.aggregate bucket df)
  = Aggregator.aggregate bucket df.
Proof.
  intros Hb. apply IdempotenceFacts.aggregate_bucketed_id; [exact Hb|].
  apply IdempotenceFacts.aggregate_is_bucketed. exact Hb.
Qed.

Lemma aggregate_idempotent_witness :
  Aggregator.aggregate Aggregator.FOUR_HOURS
    (Aggregator.aggregate Aggregator.FOUR_HOURS Samples.hourly_morning)
  = Aggregator.aggregate Aggregator.FOUR_HOURS Samples.hourly_morning.
Proof.
  apply (aggregate_idempotent Aggregator.FOUR_HOURS Samples.hourly_morning).
  reflexivity.
Defined.

(* ------------------------------------------------------------------ *)
(** ** The stock list *)

Module StrFacts.
Import Str.

Lemma lstrip_head (s : string) :
  match lstrip s with
  | EmptyString => True
  | String c _ => is_space c = false
  end.
Proof.
  induction s as [|c s IH]; [exact I|].
  cbn [lstrip]. destruct (is_space c) eqn:E; [exact IH | exact E].
Qed.

Lemma lstrip_clean (s : string) :
  match s with
  | EmptyString => True
  | String c _ => is_space c = false
  end ->
  lstrip s = s.
Proof.
  destruct s as [|c s]; [reflexivity|].
  cbn [lstrip]. intros ->. reflexivity.
Qed.

Lemma rstrip_head (s : string) :
  match s with
  | EmptyString => True
  | String c _ => is_space c = false
  end ->
  match rstrip s with
  | EmptyString => True
  | String c _ => is_space c = false
  end.
Proof.
  destruct s as [|c s]; [intros _; exact I|].
  cbn [rstrip]. intros Hc.
  destruct (rstrip s); [rewrite Hc|]; exact Hc.
Qed.

Lemma rstrip_idempotent (s : string) : rstrip (rstrip s) = rstrip s.
Proof.
  induction s as [|c s IH]; [reflexivity|].
  cbn [rstrip]. destruct (rstrip s) as [|d r] eqn:E.
  - destruct (is_space c) eqn:Ec; [reflexivity|].
    cbn [rstrip]. rewrite Ec. reflexivity.
  - change (rstrip (String c (String d r)))
      with (match rstrip (String d r) with
            | EmptyString =>
                if is_space c then EmptyString else String c EmptyString
            | String d' r' => String c (String d' r')
            end).
    rewrite IH. reflexivity.
Qed.

Lemma strip_idempotent (s : string) : strip (strip s) = strip s.
Proof.
  unfold strip.
  rewrite (lstrip_clean (rstrip (lstrip s)))
    by (apply rstrip_head, lstrip_head).
  apply rstrip_idempotent.
Qed.

(** The search for ".NS" at the head of the rest of a cleaned symbol. *)
Lemma no_prefix_in_suffixed (c : ascii) (r : string) :
  free_of ".NS" (String c r) ->
  prefix ".NS" (String c (r ++ ".NS")) = false.
Proof.
  intros Hfree. cbn [prefix].
  destruct (ascii_dec "." c) as [<-|_]; [|reflexivity].
  destruct r as [|c1 r1]; [reflexivity|].
  cbn [append prefix].
  destruct (ascii_dec "N" c1) as [<-|_]; [|reflexivity].
  destruct r1 as [|c2 r2]; [reflexivity|].
  cbn [append prefix].
  destruct (ascii_dec "S" c2) as [<-|_]; [|reflexivity].
  exfalso. apply (Hfree EmptyString r2). reflexivity.
Qed.

Lemma free_of_tail (old : string) (c : ascii) (r : string) :
  free_of old (String c r) -> free_of old r.
Proof.
  intros H pre post E. apply (H (String c pre) post).
  rewrite E. reflexivity.
Qed.

Lemma replace_suffix_round_trip (t : string) :
  free_of ".NS" t -> replace ".NS" "" (t ++ ".NS") = t.
Proof.
  unfold replace. induction t as [|c r IH]; intros Hfree; [reflexivity|].
  change ((String c r ++ ".NS")%string) with (String c (r ++ ".NS")).
  cbn [replace_from].
  rewrite (no_prefix_in_suffixed c r Hfree).
  f_equal. apply IH. exact (free_of_tail _ _ _ Hfree).
Qed.

End StrFacts.

(** Every symbol built from the text field is a non-empty name, free of
    surrounding white space, followed by ".NS": blank lines give no
    symbol. *)
Theorem custom_symbols_are_clean (custom_text symbol : string) :
  In symbol (update_stock_list true custom_text) ->
  exists name,
    symbol = (name ++ ".NS")%string
    /\ name <> EmptyString
    /\ Str.strip name = name.
Proof.
  unfold update_stock_list. intros Hin.
  apply in_map_iff in Hin. destruct Hin as [s [<- Hs]].
  apply filter_In in Hs. destruct Hs as [_ Hne].
  exists (Str.strip s). split; [reflexivity|]. split.
  - intros E. rewrite E in Hne. discriminate Hne.
  - apply StrFacts.strip_idempotent.
Qed.

Lemma custom_symbols_are_clean_witness :
  exists name,
    "INFY.NS"%string = (name ++ ".NS")%string
    /\ name <> EmptyString
    /\ Str.strip name = name.
Proof.
  apply (custom_symbols_are_clean
           (String " " ("TCS" ++ String Str.newline
                              (String Str.newline "  INFY  ")))).
  vm_compute. right. left. reflexivity.
Defined.

(** The symbol shown in the table is the name the stock list was built
    from: appending ".NS" and removing ".NS" again gives the name back,
    for every name in which ".NS" does not occur. *)
Theorem symbol_round_trip (name : string) :
  Str.free_of ".NS" name ->
  Str.replace ".NS" "" (name ++ ".NS") = name.
Proof. apply StrFacts.replace_suffix_round_trip. Qed.

Lemma symbol_round_trip_witness :
  Str.replace ".NS" "" ("TCS" ++ ".NS") = "TCS"%string.
Proof.
  apply (symbol_round_trip "TCS").
  intros pre post E.
  destruct pre as [|a [|b [|c pre]]]; cbn in E; try discriminate E.
  injection E as _ _ _ E. destruct pre; discriminate E.
Defined.

(* ------------------------------------------------------------------ *)
(** ** The table and the metric boxes *)

Lemma status_split (rs : list ScanResult) :
  length rs
  = (length (filter (fun r => (Status r =? "Inside Zone")%string) rs)
     + length (filter (fun r => (Status r =? "Touching Zone")%string) rs)
     + length (filter (fun r => negb (inside_or_touching (Status r))) rs))%nat.
Proof.
  induction rs as [|r rs IH]; [reflexivity|].
  cbn [filter length]. unfold inside_or_touching in *.
  destruct (Status r =? "Inside Zone")%string eqn:E1.
  - apply String.eqb_eq in E1. rewrite E1. cbn. lia.
  - destruct (Status r =? "Touching Zone")%string eqn:E2; cbn; lia.
Qed.

(** The fourth box counts the results that are neither inside nor
    touching: it is never negative and the last three boxes add up to the
    first. *)
Theorem metrics_add_up (scan_results : list ScanResult) :
  other (update_metrics scan_results)
  = Z.of_nat (length (filter (fun r => negb (inside_or_touching (Status r)))
                             scan_results))
  /\ (0 <= other (update_metrics scan_results))%Z
  /\ total_scanned (update_metrics scan_results)
     = (inside_zone (update_metrics scan_results)
        + touching_zone (update_metrics scan_results)
        + other (update_metrics scan_results))%Z.
Proof.
  unfold update_metrics. cbn [other total_scanned inside_zone touching_zone].
  pose proof (status_split scan_results) as H.
  repeat split; lia.
Qed.

(** The filters "Inside or Touching" and "Active Zones" show the same
    rows. *)
Theorem active_zones_is_inside_or_touching (scan_results : list ScanResult) :
  display_results "Active Zones" scan_results
  = display_results "Inside or Touching" scan_results.
Proof.
  unfold display_results. apply flat_map_ext. intros r.
  cbn [String.eqb Ascii.eqb Bool.eqb andb].
  destruct (inside_or_touching (Status r)); reflexivity.
Qed.

Lemma display_counts (rs : list ScanResult) :
  length (display_results "Inside Zone Only" rs)
  = length (filter (fun r => (Status r =? "Inside Zone")%string) rs)
  /\ length (display_results "Inside or Touching" rs)
     = (length (filter (fun r => (Status r =? "Inside Zone")%string) rs)
        + length (filter (fun r => (Status r =? "Touching Zone")%string) rs))%nat
  /\ length (display_results "All Scanned" rs) = length rs.
Proof.
  induction rs as [|r rs IH]; [repeat split|].
  destruct IH as (IH1 & IH2 & IH3).
  unfold display_results in *. cbn [flat_map filter].
  rewrite !length_app, IH1, IH2, IH3.
  unfold inside_or_touching.
  cbn [String.eqb Ascii.eqb Bool.eqb andb].
  destruct (Status r =? "Inside Zone")%string eqn:E1.
  - apply String.eqb_eq in E1. rewrite E1. cbn. repeat split; lia.
  - destruct (Status r =? "Touching Zone")%string eqn:E2; cbn;
      repeat split; lia.
Qed.

(** The boxes count what the filters show: "Inside Zone Only" shows as
    many rows as the inside box says, "Inside or Touching" as many as the
    inside and touching boxes together, and "All Scanned" as many as the
    total. *)
Theorem filters_match_metrics (scan_results : list ScanResult) :
  Z.of_nat (length (display_results "Inside Zone Only" scan_results))
  = inside_zone (update_metrics scan_results)
  /\ Z.of_nat (length (display_results "Inside or Touching" scan_results))
     = (inside_zone (update_metrics scan_results)
        + touching_zone (update_metrics scan_results))%Z
  /\ Z.of_nat (length (display_results "All Scanned" scan_results))
     = total_scanned (update_metrics scan_results).
Proof.
  destruct (display_counts scan_results) as (H1 & H2 & H3).
  unfold update_metrics. cbn [total_scanned inside_zone touching_zone].
  rewrite H1, H2, H3. repeat split; lia.
Qed.

(** Every filter shows rows of the scan, in scan order, and colours a row
    "inside" or "touching" exactly when its status says so. *)
Theorem displayed_rows_in_scan_order
        (filter_option : string) (scan_results : list ScanResult) :
  subsequence (map fst (display_results filter_option scan_results))
              scan_results
  /\ Forall (fun row =>
               (snd row = "inside"%string
                <-> Status (fst row) = "Inside Zone"%string)
               /\ (snd row = "touching"%string
                   <-> Status (fst row) = "Touching Zone"%string))
            (display_results filter_option scan_results).
Proof.
  unfold display_results.
  induction scan_results as [|r rs [IHs IHf]]; [split; constructor|].
  cbn [flat_map]. rewrite map_app.
  assert (Hskip :
    subsequence
      (map fst (@nil (ScanResult * string)) ++
       map fst (display_results filter_option rs)) (r :: rs)
    /\ Forall (fun row =>
                 (snd row = "inside"%string
                  <-> Status (fst row) = "Inside Zone"%string)
                 /\ (snd row = "touching"%string
                     <-> Status (fst row) = "Touching Zone"%string))
              ([] ++ display_results filter_option rs)).
  { cbn [map app]. split; [constructor; exact IHs | exact IHf]. }
  unfold display_results in Hskip.
  destruct ((filter_option =? "Inside Zone Only")%string
            && negb (Status r =? "Inside Zone")%string); [exact Hskip|].
  destruct ((filter_option =? "Inside or Touching")%string
            && negb (inside_or_touching (Status r))); [exact Hskip|].
  destruct ((filter_option =? "Active Zones")%string
            && negb (inside_or_touching (Status r))); [exact Hskip|].
  clear Hskip. cbn [map app fst]. split.
  - apply subsequence_take. exact IHs.
  - constructor; [|exact IHf]. cbn [fst snd].
    destruct (Status r =? "Inside Zone")%string eqn:E1.
    + apply String.eqb_eq in E1. rewrite E1.
      split; split; intros H; try reflexivity; discriminate H.
    + apply String.eqb_neq in E1.
      destruct (Status r =? "Touching Zone")%string eqn:E2.
      * apply String.eqb_eq in E2.
        split; split; intros H; try assumption; try reflexivity;
          try discriminate H; contradiction.
      * apply String.eqb_neq in E2.
        split; split; intros H; try discriminate H; contradiction.
Qed.

(* ------------------------------------------------------------------ *)
(** ** The scan *)

Lemma detect_returns_value (MIN : Q) (LB : Z) (df : option DataFrame) :
  exists r, detect_bullish_order_block MIN LB df = Ret r.
Proof.
  destruct df as [df|]; [|now exists None].
  destruct (Nat.ltb_spec (length df) 5) as [Hlt|Hge].
  - exists None. unfold detect_bullish_order_block.
    apply Nat.ltb_lt in Hlt. now rewrite Hlt.
  - eexists. apply detect_confirmed_blocks. exact Hge.
Qed.

Section ScanFacts.

Variables (MIN : Q) (LB : Z) (TOL : Q).
Variable history : string -> option DataFrame.
Variables (round2 : Q -> Q) (format_range : Q -> Q -> string).
Variables (strftime : Z -> string) (format_percent : fp -> string).

(** A stock adds nothing, or one row with its own symbol and one of the
    four statuses. *)
Lemma scan_symbol_cases (results : list ScanResult) (symbol : string) :
  scan_symbol MIN LB TOL history round2 format_range strftime format_percent
              results symbol = Ret results
  \/ exists r,
      scan_symbol MIN LB TOL history round2 format_range strftime
                  format_percent results symbol = Ret (results ++ [r])
      /\ Symbol r = Str.replace ".NS" "" symbol
      /\ exists s, Status r = status_label s.
Proof.
  unfold scan_symbol.
  destruct (fetch history symbol) as [df|]; [|now left].
  destruct (Nat.ltb_spec (length df) 10) as [_|Hlen]; [now left|].
  destruct (detect_returns_value MIN LB (Some df)) as [o Ho].
  rewrite Ho. cbn [bind].
  destruct o as [ob|]; [|now left].
  unfold iloc.
  destruct (nth_error df (length df - 1)) as [current_candle|] eqn:En;
    [|apply nth_error_None in En; lia].
  right. cbn [bind]. eexists. split; [reflexivity|].
  cbn [Symbol Status]. split; [reflexivity|].
  eexists. apply check_zone_interaction_label.
Qed.

Lemma scan_from_rows (stock_list : list string) :
  forall results,
  exists added,
    scan_from MIN LB TOL history round2 format_range strftime format_percent
              results stock_list = Ret (results ++ added)
    /\ subsequence (map Symbol added)
                   (map (Str.replace ".NS" "") stock_list)
    /\ Forall (fun r => exists s, Status r = status_label s) added.
Proof.
  induction stock_list as [|symbol rest IH]; intros results.
  - exists []. cbn [scan_from]. rewrite app_nil_r.
    repeat split; constructor.
  - cbn [scan_from map].
    destruct (scan_symbol_cases results symbol) as [E|[r (E & Hsym & Hst)]];
      rewrite E; cbn [bind].
    + destruct (IH results) as (added & Eadd & Hsub & Hall).
      exists added. repeat split; try assumption.
      constructor. exact Hsub.
    + destruct (IH (results ++ [r])) as (added & Eadd & Hsub & Hall).
      exists (r :: added). rewrite Eadd, <- app_assoc.
      repeat split.
      * cbn [map]. rewrite Hsym. apply subsequence_take. exact Hsub.
      * constructor; assumption.
Qed.

End ScanFacts.

(** The scan never raises: whatever the download returns for each symbol,
    [scan_stocks] ends with a list of results. *)
Theorem scan_stocks_never_raises
        (MIN : Q) (LB : Z) (TOL : Q) (history : string -> option DataFrame)
        (round2 : Q -> Q) (format_range : Q -> Q -> string)
        (strftime : Z -> string) (format_percent : fp -> string)
        (stock_list : list string) :
  exists results,
    scan_stocks MIN LB TOL history round2 format_range strftime format_percent
                stock_list = Ret results.
Proof.
  destruct (scan_from_rows MIN LB TOL history round2 format_range strftime
                           format_percent stock_list [])
    as (added & E & _).
  exists added. exact E.
Qed.

(** The results keep the order of the stock list and hold at most one row
    for each entry of it: their symbols are the listed symbols with ".NS"
    removed, some left out. *)
Theorem scan_results_follow_stock_list
        (MIN : Q) (LB : Z) (TOL : Q) (history : string -> option DataFrame)
        (round2 : Q -> Q) (format_range : Q -> Q -> string)
        (strftime : Z -> string) (format_percent : fp -> string)
        (stock_list : list string) (results : list ScanResult) :
  scan_stocks MIN LB TOL history round2 format_range strftime format_percent
              stock_list = Ret results ->
  subsequence (map Symbol results) (map (Str.replace ".NS" "") stock_list).
Proof.
  unfold scan_stocks. intros E.
  destruct (scan_from_rows MIN LB TOL history round2 format_range strftime
                           format_percent stock_list [])
    as (added & E' & Hsub & _).
  rewrite E in E'. injection E' as ->. exact Hsub.
Qed.

Lemma scan_results_follow_stock_list_witness :
  subsequence (map Symbol [ScanSamples.tcs_row])
              (map (Str.replace ".NS" "") ScanSamples.stock_list).
Proof.
  apply (scan_results_follow_stock_list
           MIN_BULLISH_MOVE LOOKBACK_CANDLES ZONE_TOUCH_TOLERANCE
           ScanSamples.provider (fun q => q) (fun _ _ => EmptyString)
           (fun _ => EmptyString) (fun _ => EmptyString)
           ScanSamples.stock_list [ScanSamples.tcs_row]).
  vm_compute. reflexivity.
Defined.

(** Every row of the results carries one of the four statuses of the
    classifier. *)
Theorem scan_results_have_status
        (MIN : Q) (LB : Z) (TOL : Q) (history : string -> option DataFrame)
        (round2 : Q -> Q) (format_range : Q -> Q -> string)
        (strftime : Z -> string) (format_percent : fp -> string)
        (stock_list : list string) (results : list ScanResult) :
  scan_stocks MIN LB TOL history round2 format_range strftime format_percent
              stock_list = Ret results ->
  Forall (fun r => exists s, Status r = status_label s) results.
Proof.
  unfold scan_stocks. intros E.
  destruct (scan_from_rows MIN LB TOL history round2 format_range strftime
                           format_percent stock_list [])
    as (added & E' & _ & Hall).
  rewrite E in E'. injection E' as ->. exact Hall.
Qed.

Lemma scan_results_have_status_witness :
  Forall (fun r => exists s, Status r = status_label s) [ScanSamples.tcs_row].
Proof.
  apply (scan_results_have_status
           MIN_BULLISH_MOVE LOOKBACK_CANDLES ZONE_TOUCH_TOLERANCE
           ScanSamples.provider (fun q => q) (fun _ _ => EmptyString)
           (fun _ => EmptyString) (fun _ => EmptyString)
           ScanSamples.stock_list [ScanSamples.tcs_row]).
  vm_compute. reflexivity.
Defined.
